(** * RamSim: the per-step transition engine of [ramsim/environment.py]

    A shallow embedding of [RamSimEnv] (reset, the eight per-slot action
    handlers, the dynamics and spawn passes, telemetry and reward) and the
    properties of its specification.

    Modelling conventions.
    - NumPy [float32]/[float64] values are exact rationals ([Q]); rounding
      is abstracted.  Comparisons of a stored state code with the literals
      [1.0], [0.6], [0.3], [0] succeed exactly when the code was stored
      from the same literal, as they do when both sides are [float32].
    - Exceptions are a [result] type; a method is a function from the state
      it touches to a [result] carrying its return value and the new state.
    - [np.random] is the process-wide legacy generator, shared by every
      instance.  It is a tape of raw outputs, one cell for each draw;
      [random_sample] reads a cell as a 53-bit fraction, so every draw is
      in [0, 1) by construction.
    - [np.exp] is a parameter of the development. *)

From Stdlib Require Import QArith Qminmax Lqa Lia ZArith.
From stdpp Require Import base list.

Local Open Scope Q_scope.

(** ** Numbers *)

Definition np_clip (x lo hi : Q) : Q := Qmin (Qmax x lo) hi.

(** [x < y] as a boolean; [x > y] is [Qlt_bool y x], [x >= y] is
    [Qle_bool y x]. *)
Definition Qlt_bool (x y : Q) : bool := negb (Qle_bool y x).

(** ** Exceptions and the method monad *)

Inductive exn := IndexError | ValueError.

Inductive result (A : Type) :=
| Ok (a : A)
| Raise (e : exn).
Arguments Ok {A} a.
Arguments Raise {A} e.

Definition M (S A : Type) : Type := S -> result (A * S).

Definition ret {S A} (a : A) : M S A := fun s => Ok (a, s).

Definition bind {S A B} (m : M S A) (f : A -> M S B) : M S B :=
  fun s => match m s with
           | Ok (a, s') => f a s'
           | Raise e => Raise e
           end.

Definition raise {S A} (e : exn) : M S A := fun _ => Raise e.
Definition get {S} : M S S := fun s => Ok (s, s).
Definition modify {S} (f : S -> S) : M S unit := fun s => Ok (tt, f s).

Declare Scope method_scope.
Delimit Scope method_scope with method.
Notation "x <- c1 ;; c2" := (bind c1 (fun x => c2))
  (at level 100, c1 at next level, right associativity) : method_scope.
Notation "c1 ;;; c2" := (bind c1 (fun _ => c2))
  (at level 100, right associativity) : method_scope.

(** [for x in l: body(x)] *)
Fixpoint for_each {S A} (l : list A) (body : A -> M S unit) : M S unit :=
  match l with
  | [] => ret tt
  | x :: l' => bind (body x) (fun _ => for_each l' body)
  end.

(** Run a method on the first component of a pair of states. *)
Definition on_fst {S T A} (m : M S A) : M (S * T) A :=
  fun st => match m (fst st) with
            | Ok (a, s') => Ok (a, (s', snd st))
            | Raise e => Raise e
            end.

(** Run a total state transformer on the second component. *)
Definition on_snd {S T A} (f : T -> A * T) : M (S * T) A :=
  fun st => let (a, t') := f (snd st) in Ok (a, (fst st, t')).

(** A draw that cannot raise. *)
Definition draw {T A} (f : T -> A * T) : M T A := fun t => Ok (f t).

(** Run a state transformer that may raise on the second component. *)
Definition on_snd_try {S T A} (f : T -> result (A * T)) : M (S * T) A :=
  fun st => match f (snd st) with
            | Ok (a, t') => Ok (a, (fst st, t'))
            | Raise e => Raise e
            end.

(** Python list indexing [l[a]]: negative indices count from the end. *)
Definition py_index {A} (l : list A) (a : Z) : result A :=
  let n := Z.of_nat (length l) in
  let j := (if (a <? 0)%Z then (a + n)%Z else a) in
  if ((0 <=? j)%Z && (j <? n)%Z)%bool then
    match l !! Z.to_nat j with
    | Some x => Ok x
    | None => Raise IndexError
    end
  else Raise IndexError.

(** ** The global generator [np.random] *)

Definition rng := list N.

Definition next_cell (g : rng) : N * rng :=
  match g with
  | [] => (0%N, [])
  | c :: g' => (c, g')
  end.

(** [np.random.random_sample()] / [np.random.rand()] *)
Definition random_sample (g : rng) : Q * rng :=
  let (c, g') := next_cell g in
  (Z.of_N (c mod 2 ^ 53) # 2 ^ 53, g').

(** [np.random.uniform(lo, hi)] is [lo + (hi - lo) * random_sample()]. *)
Definition uniform (lo hi : Q) (g : rng) : Q * rng :=
  let (u, g') := random_sample g in (lo + (hi - lo) * u, g').

(** [np.random.randint(lo, hi)]: [ValueError] when [lo >= hi]. *)
Definition randint (lo hi : Z) (g : rng) : result (Z * rng) :=
  if (hi <=? lo)%Z then Raise ValueError
  else let (c, g') := next_cell g in
       Ok ((lo + Z.of_N c mod (hi - lo))%Z, g').

(** [cdf.searchsorted(u, side='right')]: how many entries are [<= u]. *)
Fixpoint searchsorted_right (cdf : list Q) (u : Q) : nat :=
  match cdf with
  | [] => 0
  | c :: cdf' => if Qle_bool c u then S (searchsorted_right cdf' u) else 0
  end.

Fixpoint cumsum_from (acc : Q) (p : list Q) : list Q :=
  match p with
  | [] => []
  | x :: p' => (acc + x) :: cumsum_from (acc + x) p'
  end.

(** [np.random.choice(a, p=p)]: one uniform draw located in the
    cumulative distribution. *)
Definition choice {A} (a : list A) (p : list Q) (g : rng) : result (A * rng) :=
  let (u, g') := random_sample g in
  match a !! searchsorted_right (cumsum_from 0 p) u with
  | Some x => Ok (x, g')
  | None => Raise IndexError
  end.

Definition swap_at {A} (i j : nat) (l : list A) : list A :=
  match l !! i, l !! j with
  | Some x, Some y => <[i:=y]> (<[j:=x]> l)
  | _, _ => l
  end.

(** [np.random.shuffle(x)] on a Python list: for [i] from [n-1] down to
    [1], exchange [x[i]] with [x[j]] for a drawn [j] in [0..i]. *)
Fixpoint shuffle_down {A} (i : nat) (l : list A) (g : rng) : list A * rng :=
  match i with
  | O => (l, g)
  | S i' =>
      let (c, g') := next_cell g in
      let j := N.to_nat (c mod N.of_nat (S i)) in
      shuffle_down i' (swap_at i j l) g'
  end.

Definition shuffle {A} (l : list A) (g : rng) : list A * rng :=
  shuffle_down (length l - 1) l g.

(** ** Data model *)

(** One row [[RAM, CPU, Priority, State]] of [process_table] or of
    [swapped_processes]; the state code is 1.0 (Running), 0.6 (Suspended),
    0.3 (Swapped) or 0 (Killed). *)
Record ProcessRecord := Row { ram : Q; cpu : Q; priority : Q; state : Q }.

(** [np.array([0, 0, 0, 0])] *)
Definition zero_row : ProcessRecord := Row 0 0 0 0.

(** [system_stats]: [[RAM usage, CPU usage, Page faults, Swap usage, Power]]. *)
Record SystemStats := Stats {
  ram_usage : Q; cpu_usage : Q; page_faults : Q; swap_usage : Q; power : Q }.

(** Modelled from the spec: [utils/constants.py] is not among the sources;
    the five index constants are the positions of the components in the
    order in which [system_stats] is built and unpacked. *)
Definition RAM_USAGE_INDEX : nat := 0.
Definition CPU_USAGE_INDEX : nat := 1.
Definition PAGE_FAULTS_INDEX : nat := 2.
Definition SWAP_USAGE_INDEX : nat := 3.
Definition POWER_INDEX : nat := 4.

Definition stat_at (s : SystemStats) (i : nat) : Q :=
  match i with
  | 0%nat => ram_usage s
  | 1%nat => cpu_usage s
  | 2%nat => page_faults s
  | 3%nat => swap_usage s
  | _ => power s
  end.

(** The fields of a [RamSimEnv] instance that the engine reads or writes.
    [np_random] is the generator that [gym.Env.reset(seed=...)] creates
    from the seed. *)
Record RamSimEnv := Env {
  k : nat;
  system_stats : SystemStats;
  process_table : list ProcessRecord;
  current_step : nat;
  swapped_processes : list ProcessRecord;
  np_random : option Z }.

Definition with_table (t : list ProcessRecord) (e : RamSimEnv) : RamSimEnv :=
  Env (k e) (system_stats e) t (current_step e) (swapped_processes e) (np_random e).
Definition with_swapped (b : list ProcessRecord) (e : RamSimEnv) : RamSimEnv :=
  Env (k e) (system_stats e) (process_table e) (current_step e) b (np_random e).
Definition with_stats (s : SystemStats) (e : RamSimEnv) : RamSimEnv :=
  Env (k e) s (process_table e) (current_step e) (swapped_processes e) (np_random e).
Definition with_step (n : nat) (e : RamSimEnv) : RamSimEnv :=
  Env (k e) (system_stats e) (process_table e) n (swapped_processes e) (np_random e).

(** [__init__] *)
Definition init (k0 : nat) : RamSimEnv :=
  Env k0 (Stats 0 0 0 0 0) (replicate k0 zero_row) 0 (replicate k0 zero_row) None.

Local Open Scope method_scope.

(** [self.process_table[index]] *)
Definition table_get (index : nat) : M RamSimEnv ProcessRecord :=
  fun e => match process_table e !! index with
           | Some r => Ok (r, e)
           | None => Raise IndexError
           end.

(** [self.process_table[index] = r] *)
Definition table_set (index : nat) (r : ProcessRecord) : M RamSimEnv unit :=
  fun e => if decide (index < length (process_table e))%nat
           then Ok (tt, with_table (<[index:=r]> (process_table e)) e)
           else Raise IndexError.

(** [self.swapped_processes[index]] *)
Definition swapped_get (index : nat) : M RamSimEnv ProcessRecord :=
  fun e => match swapped_processes e !! index with
           | Some r => Ok (r, e)
           | None => Raise IndexError
           end.

(** [self.swapped_processes[index] = r] *)
Definition swapped_set (index : nat) (r : ProcessRecord) : M RamSimEnv unit :=
  fun e => if decide (index < length (swapped_processes e))%nat
           then Ok (tt, with_swapped (<[index:=r]> (swapped_processes e)) e)
           else Raise IndexError.

(** [self.system_stats[i]] *)
Definition stats_get (i : nat) : M RamSimEnv Q :=
  fun e => Ok (stat_at (system_stats e) i, e).

(** ** The eight action handlers *)

Definition _handle_kill (index : nat) : M RamSimEnv Q :=
  r <- table_get index ;;
  if negb (Qeq_bool (state r) 0) then
    let reward :=
      if Qlt_bool 0.4 (ram r) && Qlt_bool 0.6 (priority r) then -10
      else if Qlt_bool 0.4 (ram r) && Qle_bool (priority r) 0.2
              && Qlt_bool (cpu r) 0.1 then 20
      else -2 in
    table_set index zero_row ;;;
    swapped_set index zero_row ;;;
    ret reward
  else ret (-1).

Definition _handle_swap_out (index : nat) : M RamSimEnv Q :=
  r <- table_get index ;;
  if Qeq_bool (state r) 0.3 then ret (-2)
  else if Qeq_bool (state r) 0 then ret (-5)
  else
    let reward := if Qeq_bool (state r) 0.6 then 5 else 2 in
    usage <- stats_get RAM_USAGE_INDEX ;;
    let reward := if Qle_bool 0.8 usage then reward + 10 else reward in
    swapped_set index r ;;;
    table_set index (Row 0 0 (priority r) 0.3) ;;;
    ret reward.

Definition _handle_swap_in (index : nat) : M RamSimEnv Q :=
  r <- table_get index ;;
  if negb (Qeq_bool (state r) 0.3) then ret (-2)
  else
    backup <- swapped_get index ;;
    usage <- stats_get RAM_USAGE_INDEX ;;
    let predicted_ram_usage := usage + ram backup in
    if Qlt_bool 1.0 predicted_ram_usage then ret (-10)
    else
      let reward := priority backup * 5 in
      let reward := if Qle_bool 0.8 predicted_ram_usage
                    then reward - 15 else reward in
      table_set index (Row (ram backup) (cpu backup) (priority backup) 1.0) ;;;
      swapped_set index zero_row ;;;
      ret reward.

(** The three column writes of the source (state, then CPU, then RAM
    halved in place) are one row write. *)
Definition _handle_suspend (index : nat) : M RamSimEnv Q :=
  r <- table_get index ;;
  if Qeq_bool (state r) 0.6 then ret (-2)
  else if Qeq_bool (state r) 0.3 then ret (-3)
  else if Qeq_bool (state r) 0 then ret (-5)
  else
    table_set index (Row (ram r * 0.5) 0 (priority r) 0.6) ;;;
    let reward := 0 in
    let reward := if Qlt_bool 0.4 (ram r) then reward + 5 else reward in
    usage <- stats_get RAM_USAGE_INDEX ;;
    let reward := if Qle_bool 0.8 usage then reward + 10 else reward in
    let reward := if Qlt_bool 0.6 (priority r) then reward - 12 else reward in
    ret reward.

Definition _handle_resume (index : nat) : M RamSimEnv Q :=
  r <- table_get index ;;
  if negb (Qeq_bool (state r) 0.6) then ret (-2)
  else
    let original_ram := ram r * 2 in
    usage <- stats_get RAM_USAGE_INDEX ;;
    let predicted_ram_usage := usage + original_ram in
    if Qlt_bool 1.0 predicted_ram_usage then ret (-10)
    else
      table_set index (Row original_ram 0.2 (priority r) 1.0) ;;;
      let reward := priority r * 5 in
      let reward := if Qle_bool 0.8 predicted_ram_usage
                    then reward - 15 else reward in
      ret reward.

Definition _handle_renice_decrease (index : nat) : M RamSimEnv Q :=
  r <- table_get index ;;
  if Qeq_bool (state r) 0 then ret (-5)
  else if Qle_bool (priority r) 0.1 then ret (-2)
  else
    let old_priority := priority r in
    let new_priority := np_clip (priority r - 0.2) 0.0 1.0 in
    table_set index (Row (ram r) (cpu r) new_priority (state r)) ;;;
    let reward := 0 in
    let reward :=
      if Qlt_bool 0.6 (ram r) && Qlt_bool (cpu r) 0.05 then reward + 10
      else if Qlt_bool 0.6 old_priority && Qlt_bool 0.4 (cpu r) then reward - 8
      else reward in
    ret reward.

Definition _handle_renice_increase (index : nat) : M RamSimEnv Q :=
  r <- table_get index ;;
  if Qeq_bool (state r) 0 then ret (-5)
  else if Qle_bool 0.95 (priority r) then ret (-2)
  else
    let old_priority := priority r in
    let new_priority := np_clip (priority r + 0.2) 0.0 1.0 in
    table_set index (Row (ram r) (cpu r) new_priority (state r)) ;;;
    let reward := 0 in
    let reward :=
      if Qlt_bool 0.5 (cpu r) then reward + 10
      else if Qlt_bool old_priority 0.2 && Qlt_bool (ram r) 0.1 then reward - 8
      else reward in
    ret reward.

Definition _handle_noop (index : nat) : M RamSimEnv Q := ret 0.

(** [self.handlers] *)
Definition handlers : list (nat -> M RamSimEnv Q) :=
  [ _handle_kill; _handle_swap_out; _handle_swap_in; _handle_suspend;
    _handle_resume; _handle_renice_increase; _handle_renice_decrease;
    _handle_noop ].

(** ** Profiles *)

Inductive profile := idle | active | heavy | leaky.

(** The [np.random.uniform] bounds of RAM, CPU and priority. *)
Record ranges := Ranges { ram_range : Q * Q; cpu_range : Q * Q; priority_range : Q * Q }.

(** The bounds written in [reset]. *)
Definition reset_ranges (p : profile) : ranges :=
  match p with
  | heavy => Ranges (0.4, 0.6) (0.6, 0.9) (0.7, 1.0)
  | leaky => Ranges (0.6, 0.8) (0.0, 0.05) (0.0, 0.2)
  | active => Ranges (0.1, 0.4) (0.2, 0.5) (0.4, 0.7)
  | idle => Ranges (0.01, 0.05) (0.0, 0.02) (0.1, 0.4)
  end.

(** The bounds written in [_spawn_new_process]. *)
Definition spawn_ranges (p : profile) : ranges :=
  match p with
  | heavy => Ranges (0.4, 0.6) (0.6, 0.9) (0.7, 1.0)
  | leaky => Ranges (0.3, 0.5) (0.0, 0.05) (0.0, 0.2)
  | active => Ranges (0.1, 0.4) (0.2, 0.5) (0.4, 0.7)
  | idle => Ranges (0.01, 0.05) (0.0, 0.02) (0.1, 0.4)
  end.

(** [[uniform(..), uniform(..), uniform(..), 1.0]], drawn left to right. *)
Definition sample_row (rg : ranges) (g : rng) : ProcessRecord * rng :=
  let (a, g1) := uniform (fst (ram_range rg)) (snd (ram_range rg)) g in
  let (b, g2) := uniform (fst (cpu_range rg)) (snd (cpu_range rg)) g1 in
  let (c, g3) := uniform (fst (priority_range rg)) (snd (priority_range rg)) g2 in
  (Row a b c 1.0, g3).

(** [for _ in range(n): processes.append(...)] *)
Fixpoint sample_rows (n : nat) (rg : ranges) (g : rng) : list ProcessRecord * rng :=
  match n with
  | O => ([], g)
  | S n' =>
      let (r, g1) := sample_row rg g in
      let (rest, g2) := sample_rows n' rg g1 in
      (r :: rest, g2)
  end.

(** ** Telemetry, reward, dynamics, spawn, step and reset *)

(** [np.sum] of one column. *)
Definition np_sum (f : ProcessRecord -> Q) (t : list ProcessRecord) : Q :=
  fold_right (fun r acc => f r + acc) 0 t.

Record Observation := Obs {
  obs_system_stats : SystemStats;
  obs_process_table : list ProcessRecord }.

Record Info := MkInfo {
  info_step : nat; info_ram_usage : Q; info_cpu_usage : Q;
  info_page_faults : Q; info_swap_usage : Q; info_power : Q }.

Record StepResult := MkStep {
  observation : Observation;
  step_reward : Q;
  terminated : bool;
  truncated : bool;
  info : Info }.

Inductive ResetInfo := env_initialized.

Definition _get_obs (e : RamSimEnv) : Observation :=
  Obs (system_stats e) (process_table e).

Section Engine.

Variable np_exp : Q -> Q.

(** The telemetry computation, written twice in the source: at the end
    of [reset] and as the body of [_update_system_stats]. *)
Definition telemetry (t : list ProcessRecord) : SystemStats :=
  let base_os_load := 0.10 in
  let total_cpu_usage := np_clip (np_sum cpu t) 0 1 in
  let total_ram_usage := np_sum ram t + base_os_load in
  let page_fault := 1 / (1 + np_exp (- (total_ram_usage - 0.8) * 10)) in
  let raw_swap := Qmax 0 (total_ram_usage - 1.0) in
  let swap_usage := np_clip (raw_swap / 1.0) 0 1 in
  let raw_power := 50 + total_cpu_usage * 100 + total_ram_usage * 40 in
  let power := np_clip (raw_power / 200) 0 1 in
  Stats (np_clip total_ram_usage 0 1) total_cpu_usage page_fault swap_usage power.

Definition _update_system_stats : M RamSimEnv unit :=
  modify (fun e => with_stats (telemetry (process_table e)) e).

Definition _calculate_global_reward (e : RamSimEnv) : Q :=
  let s := system_stats e in
  let r_stability := if Qle_bool 0.9 (ram_usage s) then -10 else 1.0 in
  let r_power := (1 - power s) * 2 in
  let r_qos := np_sum (fun r => priority r * (if Qeq_bool (state r) 1.0 then 1 else 0))
                 (process_table e) in
  let r_trashing := - (swap_usage s + page_faults s) * 5 in
  0.4 * r_stability + 0.2 * r_power + 0.3 * r_qos + 0.1 * r_trashing.

(** The body of the loop of [_apply_process_dynamics]; the CPU and RAM
    column writes are one row write after the draws. *)
Definition dynamics_slot (i : nat) : M (RamSimEnv * rng) unit :=
  r <- on_fst (table_get i) ;;
  if Qeq_bool (state r) 1.0 then
    cpu_jitter <- on_snd (uniform (-0.05) 0.05) ;;
    let new_cpu := np_clip (cpu r + cpu_jitter) 0.01 0.95 in
    new_ram <- (if Qlt_bool 0.6 (ram r) && Qlt_bool (cpu r) 0.1 then
                  leak_amount <- on_snd (uniform 0.01 0.06) ;;
                  ret (np_clip (ram r + leak_amount) 0 1)
                else
                  ram_jitter <- on_snd (uniform (-0.02) 0.02) ;;
                  ret (np_clip (ram r + ram_jitter) 0.01 0.95)) ;;
    on_fst (table_set i (Row new_ram new_cpu (priority r) (state r))) ;;;
    u <- on_snd random_sample ;;
    if Qlt_bool u 0.02 then on_fst (table_set i zero_row) else ret tt
  else ret tt.

Definition _apply_process_dynamics : M (RamSimEnv * rng) unit :=
  st <- get ;;
  for_each (seq 0 (k (fst st))) dynamics_slot.

(** [np.where(self.process_table[:, 3] == 0)[0]] *)
Definition killed_indices (t : list ProcessRecord) : list nat :=
  List.filter
    (fun i => match t !! i with
              | Some r => Qeq_bool (state r) 0
              | None => false
              end)
    (seq 0 (length t)).

Definition spawn_slot (idx : nat) : M (RamSimEnv * rng) unit :=
  u <- on_snd random_sample ;;
  if Qlt_bool u 0.05 then
    profile_type <- on_snd_try (choice [idle; active; heavy; leaky]
                                       [0.5; 0.3; 0.15; 0.05]) ;;
    r <- on_snd (sample_row (spawn_ranges profile_type)) ;;
    on_fst (table_set idx r)
  else ret tt.

Definition _spawn_new_process : M (RamSimEnv * rng) unit :=
  st <- get ;;
  for_each (killed_indices (process_table (fst st))) spawn_slot.

(** The handler loop of [step]: [reward += self.handlers[action[i]](i)]. *)
Fixpoint apply_actions (action : list Z) (indices : list nat) (reward : Q)
  : M RamSimEnv Q :=
  match indices with
  | [] => ret reward
  | i :: rest =>
      match action !! i with
      | None => raise IndexError
      | Some process_action =>
          match py_index handlers process_action with
          | Raise e => raise e
          | Ok handler =>
              local <- handler i ;;
              apply_actions action rest (reward + local)
          end
      end
  end.

Definition step (action : list Z) : M (RamSimEnv * rng) StepResult :=
  let reward := 0 in
  on_fst (modify (fun e => with_step (S (current_step e)) e)) ;;;
  st <- get ;;
  reward <- on_fst (apply_actions action (seq 0 (k (fst st))) reward) ;;
  _apply_process_dynamics ;;;
  _spawn_new_process ;;;
  on_fst _update_system_stats ;;;
  st <- get ;;
  let e := fst st in
  let reward := reward + _calculate_global_reward e in
  let obs := _get_obs e in
  let s := system_stats e in
  let info := MkInfo (current_step e)
                (stat_at s RAM_USAGE_INDEX) (stat_at s CPU_USAGE_INDEX)
                (stat_at s PAGE_FAULTS_INDEX) (stat_at s SWAP_USAGE_INDEX)
                (stat_at s POWER_INDEX) in
  let terminated := Qle_bool 1.0 (stat_at s RAM_USAGE_INDEX) in
  ret (MkStep obs reward terminated false info).

(** [super().reset(seed=seed)]: a seed that is given creates the
    instance's own generator.  Nothing below draws from it: every draw is
    an [np.random] call. *)
Definition seed_np_random (seed : option Z) (e : RamSimEnv) : RamSimEnv :=
  match seed with
  | Some s => Env (k e) (system_stats e) (process_table e) (current_step e)
                (swapped_processes e) (Some s)
  | None => e
  end.

(** The profile generation of [reset]: the three counts, the rows of
    each profile with Idle filling the table up to [k], and the shuffle. *)
Definition generate_processes (kk : nat) : M rng (list ProcessRecord) :=
  heavy_count <- randint 0 2 ;;
  leaky_count <- randint 0 2 ;;
  active_count <- randint 0 (Z.of_nat kk - heavy_count - leaky_count + 1) ;;
  hs <- draw (sample_rows (Z.to_nat heavy_count) (reset_ranges heavy)) ;;
  ls <- draw (sample_rows (Z.to_nat leaky_count) (reset_ranges leaky)) ;;
  acs <- draw (sample_rows (Z.to_nat active_count) (reset_ranges active)) ;;
  let processes := hs ++ ls ++ acs in
  ids <- draw (sample_rows (kk - length processes) (reset_ranges idle)) ;;
  draw (shuffle (processes ++ ids)).

(** [np.array(processes)] of an empty list has no columns: the telemetry
    computation raises [IndexError]. *)
Definition reset (seed : option Z) : M (RamSimEnv * rng) (Observation * ResetInfo) :=
  on_fst (modify (seed_np_random seed)) ;;;
  on_fst (modify (with_step 0)) ;;;
  st <- get ;;
  let kk := k (fst st) in
  processes <- on_snd_try (generate_processes kk) ;;
  match processes with
  | [] => raise IndexError
  | _ =>
      on_fst (modify (with_table processes)) ;;;
      on_fst (modify (with_swapped (replicate kk zero_row))) ;;;
      on_fst (modify (fun e => with_stats (telemetry (process_table e)) e)) ;;;
      st <- get ;;
      ret (_get_obs (fst st), env_initialized)
  end.

(** What [step] returns once the three passes have run and the telemetry
    has been recomputed. *)
Definition step_result (reward : Q) (e : RamSimEnv) : StepResult :=
  let s := system_stats e in
  MkStep (_get_obs e) (reward + _calculate_global_reward e)
    (Qle_bool 1.0 (ram_usage s)) false
    (MkInfo (current_step e) (ram_usage s) (cpu_usage s) (page_faults s)
       (swap_usage s) (power s)).

Definition refresh (e : RamSimEnv) : RamSimEnv :=
  with_stats (telemetry (process_table e)) e.

(** The instances that [reset], then any number of successful [step]
    calls, produce; the generator state and the instance that is reset
    are arbitrary. *)
Inductive reachable : RamSimEnv -> Prop :=
| reachable_reset seed e0 g obs e g' :
    reset seed (e0, g) = Ok (obs, (e, g')) -> reachable e
| reachable_step action e g out e' g' :
    reachable e ->
    step action (e, g) = Ok (out, (e', g')) -> reachable e'.

End Engine.

(** * The vocabulary of the claims *)

(** ** Slots and invariants *)

(** Write row [r'] and backup [b'] at slot [i]. *)
Definition put_slot (i : nat) (r' b' : ProcessRecord) (e : RamSimEnv) : RamSimEnv :=
  with_swapped (<[i:=b']> (swapped_processes e))
    (with_table (<[i:=r']> (process_table e)) e).

Definition unit_interval (q : Q) : Prop := 0 <= q <= 1.

Definition valid_state (q : Q) : Prop :=
  q == 1.0 \/ q == 0.6 \/ q == 0.3 \/ q == 0.0.

(** Every field of a row is in [0, 1] and the state is one of the four
    codes. *)
Definition row_ok (r : ProcessRecord) : Prop :=
  unit_interval (ram r) /\ unit_interval (cpu r) /\
  unit_interval (priority r) /\ valid_state (state r).

(** The row is [[0, 0, 0, 0]]. *)
Definition is_zero (b : ProcessRecord) : Prop :=
  ram b == 0 /\ cpu b == 0 /\ priority b == 0 /\ state b == 0.

(** A slot has a non-zero backup iff its state is Swapped. *)
Definition backup_ok (r b : ProcessRecord) : Prop :=
  ~ is_zero b <-> state r == 0.3.

Definition backup_inv (e : RamSimEnv) : Prop :=
  Forall2 backup_ok (process_table e) (swapped_processes e).

(** What holds of every slot of a reachable instance. *)
Definition slot_inv (r b : ProcessRecord) : Prop :=
  row_ok r /\ backup_ok r b /\
  (state r == 0.3 -> ram r == 0 /\ cpu r == 0) /\
  (state r == 1.0 \/ state r == 0.6 -> 0 < ram r) /\
  (state r == 0.3 -> 0 < ram b) /\
  unit_interval (ram b) /\ unit_interval (cpu b) /\ unit_interval (priority b).

Definition Inv (e : RamSimEnv) : Prop :=
  length (process_table e) = k e /\
  Forall2 slot_inv (process_table e) (swapped_processes e) /\
  0 <= ram_usage (system_stats e).

(** What a handler's write to one slot keeps. *)
Definition slot_pres (usage : Q) (r b r' b' : ProcessRecord) : Prop :=
  (backup_ok r b -> backup_ok r' b') /\
  (0 <= usage -> slot_inv r b -> slot_inv r' b').

(** An invariant together with the fields no slot write touches. *)
Definition framed (s : SystemStats) (k0 n : nat) (e : RamSimEnv) : Prop :=
  Inv e /\ system_stats e = s /\ k e = k0 /\ current_step e = n.

Definition sized (k0 : nat) (e : RamSimEnv) : Prop :=
  length (process_table e) = k0 /\ length (swapped_processes e) = k0 /\ k e = k0.

(** A well-formed action vector: [k] codes, each in [0, 7]. *)
Definition well_formed_action (k0 : nat) (action : list Z) : Prop :=
  length action = k0 /\ Forall (fun a => (0 <= a <= 7)%Z) action.

(** ** What a sampled row satisfies *)

Definition range_ok (p : Q * Q) : Prop := 0 <= fst p /\ fst p <= snd p /\ snd p <= 1.

Definition ranges_ok (rg : ranges) : Prop :=
  0 < fst (ram_range rg) /\
  range_ok (ram_range rg) /\ range_ok (cpu_range rg) /\ range_ok (priority_range rg).

(** A freshly sampled row: fields in range, Running. *)
Definition fresh_row (r : ProcessRecord) : Prop :=
  row_ok r /\ state r = 1.0 /\ 0 < ram r.

(** ** Concrete runs *)

(** A rational stand-in for [np.exp] in the concrete runs. *)
Definition exp_taylor (x : Q) : Q := 1 + x + x * x / 2.

Definition env_of {A} (r : result (A * (RamSimEnv * rng))) (d : RamSimEnv)
  : RamSimEnv :=
  match r with
  | Ok (_, (e, _)) => e
  | Raise _ => d
  end.

(** [RamSimEnv(k=2)], reset on a generator whose draws are all zero: two
    Idle records. *)
Definition demo_reset_env : RamSimEnv :=
  Eval vm_compute in
    env_of (reset exp_taylor (Some 42%Z) (init 2, [])) (init 2).

(** Then one step that swaps both slots out. *)
Definition demo_swapped_env : RamSimEnv :=
  Eval vm_compute in
    env_of (step exp_taylor [1; 1]%Z (demo_reset_env, [])) (init 2).

(** [RamSimEnv(k=1)] reset to one Active record with RAM 0.1, CPU just
    below 0.5 and priority 0.4; two renice-decrease steps, during which
    the dynamics take the CPU above 0.5 and the RAM to 0.08, leave a
    Running record with priority 0. *)
Definition overlap_reset_tape : rng := [0; 0; 1; 0; 2 ^ 53 - 1; 0]%N.
Definition overlap_step1_tape : rng := [2 ^ 53 - 1; 0; 2 ^ 52]%N.
Definition overlap_step2_tape : rng := [2 ^ 52; 2 ^ 52; 2 ^ 52]%N.

Definition overlap_env0 : RamSimEnv :=
  Eval vm_compute in
    env_of (reset exp_taylor None (init 1, overlap_reset_tape)) (init 1).
Definition overlap_env1 : RamSimEnv :=
  Eval vm_compute in
    env_of (step exp_taylor [6]%Z (overlap_env0, overlap_step1_tape)) (init 1).
Definition overlap_env : RamSimEnv :=
  Eval vm_compute in
    env_of (step exp_taylor [6]%Z (overlap_env1, overlap_step2_tape)) (init 1).

(** A generator state shared by two instances: 22 zero draws, then a
    one. *)
Definition shared_tape : rng := replicate 22 0%N ++ [1%N].

(** Draws that respawn a Killed slot with the leaky profile. *)
Definition leaky_spawn_tape : rng := [0; 2 ^ 53 - 1; 2 ^ 52]%N.

(** ** One slot in isolation, and what the passes do to a record *)

(** An instance of one slot, with a given ram_usage. *)
Definition one_slot (usage : Q) (r b : ProcessRecord) : RamSimEnv :=
  Env 1 (Stats usage 0 0 0 0) [r] 0 [b] None.

(** A handler run on that instance: the reward, the record and the
    backup it leaves. *)
Definition slot_run (h : nat -> M RamSimEnv Q) (usage : Q) (r b : ProcessRecord)
  : Q * ProcessRecord * ProcessRecord :=
  match h 0%nat (one_slot usage r b) with
  | Ok (rw, e') =>
      (rw, default r (process_table e' !! 0%nat), default b (swapped_processes e' !! 0%nat))
  | Raise _ => (0, r, b)
  end.

(** How the dynamics pass relates a record to the record after it. *)
Definition dynamics_rel (r r' : ProcessRecord) : Prop :=
  (~ state r == 1.0 -> r' = r) /\
  (state r == 1.0 ->
   r' = zero_row \/
   (state r' = state r /\ priority r' = priority r /\
    (exists cpu_jitter,
        -0.05 <= cpu_jitter <= 0.05 /\
        cpu r' = np_clip (cpu r + cpu_jitter) 0.01 0.95) /\
    (0.6 < ram r /\ cpu r < 0.1 ->
     exists leak_amount,
       0.01 <= leak_amount <= 0.06 /\
       ram r' = np_clip (ram r + leak_amount) 0 1) /\
    (~ (0.6 < ram r /\ cpu r < 0.1) ->
     exists ram_jitter,
       -0.02 <= ram_jitter <= 0.02 /\
       ram r' = np_clip (ram r + ram_jitter) 0.01 0.95))).

(** A record whose fields lie within the bounds of a profile. *)
Definition in_ranges (rg : ranges) (r : ProcessRecord) : Prop :=
  fst (ram_range rg) <= ram r <= snd (ram_range rg) /\
  fst (cpu_range rg) <= cpu r <= snd (cpu_range rg) /\
  fst (priority_range rg) <= priority r <= snd (priority_range rg).

(** How the spawn pass relates a record to the record after it. *)
Definition spawn_rel (r r' : ProcessRecord) : Prop :=
  (~ state r == 0 -> r' = r) /\
  (state r == 0 ->
   r' = r \/ (state r' = 1.0 /\ exists p, in_ranges (spawn_ranges p) r')).

(** The code that a negative action code stands for: Python indexes
    [self.handlers] from the end. *)
Definition alias_code (a : Z) : Z :=
  if ((-8 <=? a)%Z && (a <? 0)%Z)%bool then (a + 8)%Z else a.

(** A record as [reset] generates it: Running, within the bounds of one
    of the four profiles. *)
Definition profile_row (r : ProcessRecord) : Prop :=
  state r = 1.0 /\ exists p, in_ranges (reset_ranges p) r.

(** The instance after the two swap-outs, with its two slots exchanged. *)
Definition demo_mirrored_env : RamSimEnv :=
  Eval vm_compute in
    Env 2 (system_stats demo_swapped_env)
      (reverse (process_table demo_swapped_env))
      (current_step demo_swapped_env)
      (reverse (swapped_processes demo_swapped_env))
      (np_random demo_swapped_env).

(** A heavy and a leaky record after [reset], then both swapped out: the
    stored ram_usage is the 0.10 base load, and the two backups together
    do not fit. *)
Definition pressure_env0 : RamSimEnv :=
  Eval vm_compute in
    env_of (reset exp_taylor None (init 2, [1; 1]%N)) (init 2).
Definition pressure_env : RamSimEnv :=
  Eval vm_compute in
    env_of (step exp_taylor [1; 1]%Z (pressure_env0, [])) (init 2).

(** * Properties *)

(** ** Comparisons and clipping *)

Lemma Qlt_bool_iff x y : Qlt_bool x y = true <-> x < y.
Proof.
  unfold Qlt_bool. rewrite negb_true_iff. split.
  - intros H. apply Qnot_le_lt. intros Hle. apply Qle_bool_iff in Hle. congruence.
  - intros H. destruct (Qle_bool y x) eqn:E; [|reflexivity].
    apply Qle_bool_iff in E. lra.
Qed.

Lemma Qlt_bool_false x y : Qlt_bool x y = false <-> y <= x.
Proof.
  unfold Qlt_bool. rewrite negb_false_iff. apply Qle_bool_iff.
Qed.

Lemma Qle_bool_false x y : Qle_bool x y = false <-> y < x.
Proof.
  rewrite <- Qlt_bool_iff. unfold Qlt_bool. now rewrite negb_true_iff.
Qed.

Lemma Qeq_bool_false x y : Qeq_bool x y = false <-> ~ x == y.
Proof.
  split.
  - intros H Heq. apply Qeq_bool_iff in Heq. congruence.
  - intros H. destruct (Qeq_bool x y) eqn:E; [|reflexivity].
    apply Qeq_bool_iff in E. contradiction.
Qed.

Lemma np_clip_range x lo hi : lo <= hi -> lo <= np_clip x lo hi <= hi.
Proof.
  intros Hlh. unfold np_clip.
  destruct (Q.max_spec x lo) as [[H1 E1]|[H1 E1]];
    destruct (Q.min_spec (Qmax x lo) hi) as [[H2 E2]|[H2 E2]];
    rewrite E2; rewrite ?E1 in *; lra.
Qed.

Lemma np_clip_pos x lo hi : 0 < x -> 0 < hi -> 0 < np_clip x lo hi.
Proof.
  intros Hx Hhi. unfold np_clip.
  destruct (Q.max_spec x lo) as [[H1 E1]|[H1 E1]];
    destruct (Q.min_spec (Qmax x lo) hi) as [[H2 E2]|[H2 E2]];
    rewrite E2; rewrite ?E1 in *; lra.
Qed.

Lemma np_clip_min x hi : 0 <= x -> np_clip x 0.0 hi == Qmin x hi.
Proof.
  intros H. unfold np_clip. rewrite (Q.max_l x 0.0); [reflexivity | lra].
Qed.

(** ** Draws *)

Lemma random_sample_range g : 0 <= fst (random_sample g) < 1.
Proof.
  unfold random_sample. destruct (next_cell g) as [c g']. cbn [fst].
  set (d := (2 ^ 53)%positive).
  change (c mod 2 ^ 53)%N with (c mod N.pos d)%N.
  assert (Hlt : (c mod N.pos d < N.pos d)%N) by (apply N.mod_lt; discriminate).
  clearbody d. apply N2Z.inj_lt in Hlt. cbn [Z.of_N] in Hlt.
  generalize dependent (c mod N.pos d)%N. intros m Hm.
  unfold Qle, Qlt; cbn [Qnum Qden]. lia.
Qed.

Lemma uniform_range lo hi g :
  lo <= hi -> lo <= fst (uniform lo hi g) <= hi.
Proof.
  intros Hlh. unfold uniform.
  pose proof (random_sample_range g) as Hu.
  destruct (random_sample g) as [u g']. cbn [fst] in *. nra.
Qed.

Lemma randint_range lo hi g n g' :
  randint lo hi g = Ok (n, g') -> (lo <= n < hi)%Z.
Proof.
  unfold randint. destruct (hi <=? lo)%Z eqn:E; [discriminate|].
  apply Z.leb_gt in E. destruct (next_cell g) as [c g1].
  intros [= <- <-].
  pose proof (Z.mod_pos_bound (Z.of_N c) (hi - lo)). lia.
Qed.

(** ** Slots *)

Lemma put_slot_id i r b e :
  process_table e !! i = Some r -> swapped_processes e !! i = Some b ->
  put_slot i r b e = e.
Proof.
  intros Hr Hb. destruct e. unfold put_slot, with_swapped, with_table.
  cbn in *. now rewrite !list_insert_id.
Qed.

Lemma put_slot_table i r' b e :
  swapped_processes e !! i = Some b ->
  put_slot i r' b e = with_table (<[i:=r']> (process_table e)) e.
Proof.
  intros Hb. destruct e. unfold put_slot, with_swapped, with_table.
  cbn in *. now rewrite (list_insert_id _ _ _ Hb).
Qed.

Lemma slot_pres_refl usage r b : slot_pres usage r b r b.
Proof. split; auto. Qed.

Lemma table_get_ok i e r :
  process_table e !! i = Some r -> table_get i e = Ok (r, e).
Proof. intros H. unfold table_get. now rewrite H. Qed.

Lemma swapped_get_ok i e b :
  swapped_processes e !! i = Some b -> swapped_get i e = Ok (b, e).
Proof. intros H. unfold swapped_get. now rewrite H. Qed.

Lemma table_set_ok i e r' :
  (i < length (process_table e))%nat ->
  table_set i r' e = Ok (tt, with_table (<[i:=r']> (process_table e)) e).
Proof.
  intros H. unfold table_set.
  destruct (decide _); [reflexivity | contradiction].
Qed.

Lemma swapped_set_ok i e b' :
  (i < length (swapped_processes e))%nat ->
  swapped_set i b' e = Ok (tt, with_swapped (<[i:=b']> (swapped_processes e)) e).
Proof.
  intros H. unfold swapped_set.
  destruct (decide _); [reflexivity | contradiction].
Qed.

Lemma table_get_None i e :
  process_table e !! i = None -> table_get i e = Raise IndexError.
Proof. intros H. unfold table_get. now rewrite H. Qed.

Ltac bool_hyps :=
  repeat match goal with
    | H : negb _ = true |- _ => apply negb_true_iff in H
    | H : negb _ = false |- _ => apply negb_false_iff in H
    | H : (_ && _)%bool = true |- _ => apply andb_true_iff in H; destruct H
    | H : Qeq_bool _ _ = true |- _ => apply Qeq_bool_iff in H
    | H : Qeq_bool _ _ = false |- _ => apply Qeq_bool_false in H
    | H : Qle_bool _ _ = true |- _ => apply Qle_bool_iff in H
    | H : Qle_bool _ _ = false |- _ => apply Qle_bool_false in H
    | H : Qlt_bool _ _ = true |- _ => apply Qlt_bool_iff in H
    | H : Qlt_bool _ _ = false |- _ => apply Qlt_bool_false in H
    end.

Ltac env_simpl :=
  cbn [process_table swapped_processes system_stats current_step k np_random
       with_table with_swapped with_stats with_step stat_at RAM_USAGE_INDEX
       fst snd].

Ltac slot_in_range :=
  env_simpl; rewrite ?length_insert; eapply lookup_lt_Some; eassumption.

(** Run the primitive accesses of a handler whose slot exists. *)
Ltac run_handler Hr Hb :=
  unfold bind, ret, stats_get;
  repeat first
    [ rewrite (table_get_ok _ _ _ Hr)
    | rewrite (swapped_get_ok _ _ _ Hb)
    | rewrite table_set_ok by slot_in_range
    | rewrite swapped_set_ok by slot_in_range
    | progress env_simpl ].

(** ** What every handler does to its slot *)

Ltac slot_arith :=
  bool_hyps;
  unfold slot_pres, slot_inv, backup_ok, row_ok, is_zero, unit_interval,
    valid_state in *;
  cbn [ram cpu priority state zero_row] in *;
  repeat match goal with
    | |- context [np_clip ?x ?lo ?hi] =>
        let H := fresh "Hclip" in
        assert (H : lo <= np_clip x lo hi <= hi) by (apply np_clip_range; lra);
        generalize dependent (np_clip x lo hi); intros
    end;
  intuition (try lra).

Ltac handler_leaf e r b :=
  match goal with
  | |- exists _ _ _, Ok (?x, e) = _ /\ _ =>
      exists x, r, b; split;
      [ now rewrite put_slot_id | apply slot_pres_refl ]
  | |- exists _ _ _, Ok (?x, with_table (<[_:=?r']> _) e) = _ /\ _ =>
      exists x, r', b; split;
      [ now rewrite put_slot_table with (b := b) | ]
  | |- exists _ _ _,
        Ok (?x, with_swapped (<[_:=?b']> _) (with_table (<[_:=?r']> _) e)) = _ /\ _ =>
      exists x, r', b'; split; [ reflexivity | ]
  | |- exists _ _ _,
        Ok (?x, with_table (<[_:=?r']> _) (with_swapped (<[_:=?b']> _) e)) = _ /\ _ =>
      exists x, r', b'; split; [ reflexivity | ]
  end.

Lemma handler_effect h i e r b :
  h ∈ handlers ->
  process_table e !! i = Some r -> swapped_processes e !! i = Some b ->
  exists rw r' b',
    h i e = Ok (rw, put_slot i r' b' e) /\
    slot_pres (ram_usage (system_stats e)) r b r' b'.
Proof.
  intros Hh Hr Hb. apply list_elem_of_In in Hh. cbn in Hh.
  destruct Hh as [<-|[<-|[<-|[<-|[<-|[<-|[<-|[<-|[]]]]]]]]].
  - unfold _handle_kill. run_handler Hr Hb.
    destruct (negb _) eqn:?; run_handler Hr Hb; handler_leaf e r b.
    slot_arith.
  - unfold _handle_swap_out. run_handler Hr Hb.
    destruct (Qeq_bool (state r) 0.3) eqn:?; [handler_leaf e r b|].
    destruct (Qeq_bool (state r) 0) eqn:?; [handler_leaf e r b|].
    run_handler Hr Hb. handler_leaf e r b. slot_arith.
  - unfold _handle_swap_in. run_handler Hr Hb.
    destruct (negb _) eqn:?; [handler_leaf e r b|].
    run_handler Hr Hb.
    destruct (Qlt_bool 1.0 _) eqn:?; [handler_leaf e r b|].
    run_handler Hr Hb. handler_leaf e r b. slot_arith.
  - unfold _handle_suspend. run_handler Hr Hb.
    destruct (Qeq_bool (state r) 0.6) eqn:?; [handler_leaf e r b|].
    destruct (Qeq_bool (state r) 0.3) eqn:?; [handler_leaf e r b|].
    destruct (Qeq_bool (state r) 0) eqn:?; [handler_leaf e r b|].
    run_handler Hr Hb. handler_leaf e r b. slot_arith.
  - unfold _handle_resume. run_handler Hr Hb.
    destruct (negb _) eqn:?; [handler_leaf e r b|].
    run_handler Hr Hb.
    destruct (Qlt_bool 1.0 _) eqn:?; [handler_leaf e r b|].
    run_handler Hr Hb. handler_leaf e r b. slot_arith.
  - unfold _handle_renice_increase. run_handler Hr Hb.
    destruct (Qeq_bool (state r) 0) eqn:?; [handler_leaf e r b|].
    destruct (Qle_bool 0.95 _) eqn:?; [handler_leaf e r b|].
    run_handler Hr Hb. handler_leaf e r b. slot_arith.
  - unfold _handle_renice_decrease. run_handler Hr Hb.
    destruct (Qeq_bool (state r) 0) eqn:?; [handler_leaf e r b|].
    destruct (Qle_bool _ 0.1) eqn:?; [handler_leaf e r b|].
    run_handler Hr Hb. handler_leaf e r b. slot_arith.
  - unfold _handle_noop, ret. handler_leaf e r b.
Qed.

(** A handler whose slot does not exist raises, except the no-op. *)
Lemma handler_no_slot h i e :
  h ∈ handlers -> process_table e !! i = None ->
  h i e = Raise IndexError \/ h i e = Ok (0, e).
Proof.
  intros Hh Hr. apply list_elem_of_In in Hh. cbn in Hh.
  destruct Hh as [<-|[<-|[<-|[<-|[<-|[<-|[<-|[<-|[]]]]]]]]];
    first [ right; reflexivity
          | left;
            unfold _handle_kill, _handle_swap_out, _handle_swap_in,
              _handle_suspend, _handle_resume, _handle_renice_increase,
              _handle_renice_decrease, bind;
            now rewrite (table_get_None _ _ Hr) ].
Qed.

(** ** Sampled rows *)

Lemma reset_ranges_ok p : ranges_ok (reset_ranges p).
Proof. destruct p; unfold ranges_ok, range_ok; cbn; lra. Qed.

Lemma spawn_ranges_ok p : ranges_ok (spawn_ranges p).
Proof. destruct p; unfold ranges_ok, range_ok; cbn; lra. Qed.

(** A sampled row has each field within the bounds it was drawn from and
    is Running. *)
Lemma sample_row_bounds rg g :
  fst (ram_range rg) <= snd (ram_range rg) ->
  fst (cpu_range rg) <= snd (cpu_range rg) ->
  fst (priority_range rg) <= snd (priority_range rg) ->
  let r := fst (sample_row rg g) in
  fst (ram_range rg) <= ram r <= snd (ram_range rg) /\
  fst (cpu_range rg) <= cpu r <= snd (cpu_range rg) /\
  fst (priority_range rg) <= priority r <= snd (priority_range rg) /\
  state r = 1.0.
Proof.
  intros H1 H2 H3. unfold sample_row.
  pose proof (uniform_range _ _ g H1) as Ha.
  destruct (uniform _ _ g) as [a g1].
  pose proof (uniform_range _ _ g1 H2) as Hb.
  destruct (uniform _ _ g1) as [b g2].
  pose proof (uniform_range _ _ g2 H3) as Hc.
  destruct (uniform _ _ g2) as [c g3].
  cbn in *. repeat split; tauto.
Qed.

Lemma sample_row_ok rg g : ranges_ok rg -> fresh_row (fst (sample_row rg g)).
Proof.
  intros (Hpos & Hr & Hc & Hp). unfold range_ok in *.
  destruct (sample_row_bounds rg g) as (H1 & H2 & H3 & H4); try tauto.
  unfold fresh_row, row_ok, unit_interval, valid_state. rewrite H4.
  repeat split; lra.
Qed.

Lemma sample_rows_ok rg n g :
  ranges_ok rg ->
  Forall fresh_row (fst (sample_rows n rg g)) /\
  length (fst (sample_rows n rg g)) = n.
Proof.
  intros Hrg. revert g. induction n as [|n IH]; intros g; cbn.
  - split; [constructor | reflexivity].
  - pose proof (sample_row_ok rg g Hrg) as Hrow.
    destruct (sample_row rg g) as [r g1].
    specialize (IH g1). destruct (sample_rows n rg g1) as [rest g2].
    cbn in *. destruct IH as [IH1 IH2]. split; [constructor; assumption | now rewrite IH2].
Qed.

(** The profile draw of [_spawn_new_process] always selects one of the
    four profiles. *)
Lemma choice_profile_ok g :
  exists p g', choice [idle; active; heavy; leaky] [0.5; 0.3; 0.15; 0.05] g = Ok (p, g').
Proof.
  unfold choice. pose proof (random_sample_range g) as Hu.
  destruct (random_sample g) as [u g']. cbn [fst] in Hu.
  cbn [cumsum_from searchsorted_right].
  repeat match goal with
    | |- context [if Qle_bool ?c u then _ else _] =>
        destruct (Qle_bool c u) eqn:?
    end; cbn; eauto.
  bool_hyps. exfalso. lra.
Qed.

(** ** What the dynamics and spawn passes do to one slot *)

Ltac run_world :=
  unfold bind, ret, on_fst, on_snd, on_snd_try; env_simpl.

Lemma dynamics_slot_effect i e g r b :
  process_table e !! i = Some r -> swapped_processes e !! i = Some b ->
  exists r' g',
    dynamics_slot i (e, g) = Ok (tt, (put_slot i r' b e, g')) /\
    slot_pres (ram_usage (system_stats e)) r b r' b.
Proof.
  intros Hr Hb. unfold dynamics_slot. run_world.
  rewrite (table_get_ok _ _ _ Hr). env_simpl.
  destruct (Qeq_bool (state r) 1.0) eqn:Hrun; env_simpl.
  2:{ exists r, g. split; [now rewrite put_slot_id | apply slot_pres_refl]. }
  destruct (uniform (-0.05) 0.05 g) as [cpu_jitter g1]. env_simpl.
  destruct (Qlt_bool 0.6 (ram r) && Qlt_bool (cpu r) 0.1) eqn:Hleak;
    env_simpl;
    match goal with
    | |- context [uniform ?lo ?hi g1] =>
        let Hu := fresh "Hu" in
        assert (Hu : lo <= fst (uniform lo hi g1) <= hi)
          by (apply uniform_range; lra);
        destruct (uniform lo hi g1) as [a g2]; cbn [fst] in Hu
    end;
    env_simpl;
    rewrite table_set_ok by slot_in_range; env_simpl;
    destruct (random_sample g2) as [u g3]; env_simpl;
    (destruct (Qlt_bool u 0.02); env_simpl;
     [ rewrite table_set_ok by slot_in_range; env_simpl;
       rewrite list_insert_insert_eq;
       exists zero_row, g3
     | eexists (Row _ _ (priority r) (state r)), g3 ]);
    (split; [now rewrite put_slot_table with (b := b)|]);
    bool_hyps;
    try (assert (0 < np_clip (ram r + a) 0 1) by (apply np_clip_pos; lra));
    slot_arith.
Qed.

Lemma dynamics_slot_no_slot i e g :
  process_table e !! i = None -> dynamics_slot i (e, g) = Raise IndexError.
Proof.
  intros Hr. unfold dynamics_slot. run_world. now rewrite (table_get_None _ _ Hr).
Qed.

Lemma spawn_slot_effect idx e g r b :
  process_table e !! idx = Some r -> swapped_processes e !! idx = Some b ->
  exists r' g',
    spawn_slot idx (e, g) = Ok (tt, (put_slot idx r' b e, g')) /\
    (state r == 0 -> slot_pres (ram_usage (system_stats e)) r b r' b).
Proof.
  intros Hr Hb. unfold spawn_slot. run_world.
  destruct (random_sample g) as [u g1]. env_simpl.
  destruct (Qlt_bool u 0.05); env_simpl.
  2:{ exists r, g1. split; [now rewrite put_slot_id | intros _; apply slot_pres_refl]. }
  destruct (choice_profile_ok g1) as (p & g2 & ->). env_simpl.
  pose proof (sample_row_ok (spawn_ranges p) g2 (spawn_ranges_ok p)) as Hfresh.
  destruct (sample_row (spawn_ranges p) g2) as [r' g3]. env_simpl.
  destruct Hfresh as (Hok & Hst & Hpos). cbn [fst] in Hok, Hst, Hpos.
  rewrite table_set_ok by slot_in_range.
  exists r', g3. split; [now rewrite put_slot_table with (b := b)|].
  intros Hk. unfold slot_pres, slot_inv, backup_ok. rewrite Hst.
  unfold row_ok, is_zero, unit_interval, valid_state in *.
  intuition (try lra).
Qed.

Lemma spawn_slot_no_slot idx e g :
  process_table e !! idx = None ->
  spawn_slot idx (e, g) = Raise IndexError \/
  exists g', spawn_slot idx (e, g) = Ok (tt, (e, g')).
Proof.
  intros Hr. unfold spawn_slot. run_world.
  destruct (random_sample g) as [u g1]. env_simpl.
  destruct (Qlt_bool u 0.05); env_simpl; [left | right; eauto].
  destruct (choice_profile_ok g1) as (p & g2 & ->). env_simpl.
  destruct (sample_row (spawn_ranges p) g2) as [r' g3]. env_simpl.
  unfold table_set. apply lookup_ge_None in Hr.
  destruct (decide _); [lia | reflexivity].
Qed.

(** ** Loops *)

Lemma for_each_pres {S A} (P : S -> Prop) (body : A -> M S unit) (l : list A) :
  (forall x s s', P s -> body x s = Ok (tt, s') -> P s') ->
  forall s s', P s -> for_each l body s = Ok (tt, s') -> P s'.
Proof.
  intros Hbody. induction l as [|x l IH]; intros s s' Hs Hrun; cbn in Hrun.
  - unfold ret in Hrun. now injection Hrun as <-.
  - unfold bind in Hrun. destruct (body x s) as [[[] s1]|] eqn:Hx; [|discriminate].
    eapply IH; [|eassumption]. eapply Hbody; eassumption.
Qed.

Lemma for_each_total {S A} (P : S -> Prop) (body : A -> M S unit) (l : list A) :
  (forall x s, In x l -> P s -> exists s', body x s = Ok (tt, s') /\ P s') ->
  forall s, P s -> exists s', for_each l body s = Ok (tt, s') /\ P s'.
Proof.
  induction l as [|x l IH]; intros Hbody s Hs; cbn.
  - exists s. split; [reflexivity | assumption].
  - destruct (Hbody x s) as (s1 & Hx & Hs1); [now left | assumption |].
    unfold bind. rewrite Hx. apply IH; [|assumption].
    intros y s2 Hy. apply Hbody. now right.
Qed.

Lemma put_slot_lookup_ne i j r' b' e :
  i <> j -> process_table (put_slot i r' b' e) !! j = process_table e !! j.
Proof. intros Hne. cbn. now apply list_lookup_insert_ne. Qed.

Lemma killed_indices_NoDup t : List.NoDup (killed_indices t).
Proof. unfold killed_indices. apply List.NoDup_filter, List.seq_NoDup. Qed.

Lemma killed_indices_killed t j r :
  In j (killed_indices t) -> t !! j = Some r -> state r == 0.
Proof.
  unfold killed_indices. intros Hj Hr. apply List.filter_In in Hj as [_ Hj].
  rewrite Hr in Hj. now apply Qeq_bool_iff.
Qed.

Lemma killed_indices_lt t j : In j (killed_indices t) -> (j < length t)%nat.
Proof.
  unfold killed_indices. intros Hj. apply List.filter_In in Hj as [Hj _].
  apply List.in_seq in Hj. lia.
Qed.

(** ** Preservation of a slot-wise invariant by every operation *)

Section Preservation.

Variable J : RamSimEnv -> Prop.

Hypothesis J_lengths :
  forall e, J e -> length (process_table e) = length (swapped_processes e).

Hypothesis J_put :
  forall i r b r' b' e,
    J e -> process_table e !! i = Some r -> swapped_processes e !! i = Some b ->
    slot_pres (ram_usage (system_stats e)) r b r' b' ->
    J (put_slot i r' b' e).

Lemma J_backup e i r :
  J e -> process_table e !! i = Some r -> exists b, swapped_processes e !! i = Some b.
Proof.
  intros HJ Hr. apply lookup_lt_Some in Hr. rewrite (J_lengths _ HJ) in Hr.
  apply lookup_lt_is_Some in Hr. destruct Hr as [b Hb]. eauto.
Qed.

Lemma handler_pres h i e rw e' :
  h ∈ handlers -> J e -> h i e = Ok (rw, e') -> J e'.
Proof.
  intros Hh HJ Hrun. destruct (process_table e !! i) as [r|] eqn:Hr.
  - destruct (J_backup e i r HJ Hr) as [b Hb].
    destruct (handler_effect h i e r b Hh Hr Hb) as (rw1 & r' & b' & Heq & Hp).
    rewrite Heq in Hrun. injection Hrun as <- <-. eapply J_put; eassumption.
  - destruct (handler_no_slot h i e Hh Hr) as [Heq|Heq];
      rewrite Heq in Hrun; [discriminate|]. now injection Hrun as <- <-.
Qed.

Lemma py_index_elem_of {A} (l : list A) a x : py_index l a = Ok x -> x ∈ l.
Proof.
  unfold py_index. destruct (_ && _)%bool; [|discriminate].
  destruct (l !! _) eqn:E; [|discriminate]. intros [= <-].
  eapply list_elem_of_lookup_2; eassumption.
Qed.

Lemma apply_actions_pres action indices rw0 e rw e' :
  J e -> apply_actions action indices rw0 e = Ok (rw, e') -> J e'.
Proof.
  revert rw0 e. induction indices as [|i rest IH]; intros rw0 e HJ Hrun; cbn in Hrun.
  - unfold ret in Hrun. now injection Hrun as <- <-.
  - destruct (action !! i) as [a|]; [|discriminate].
    destruct (py_index handlers a) as [h|] eqn:Hh; [|discriminate].
    unfold bind in Hrun. destruct (h i e) as [[local e1]|] eqn:Hi; [|discriminate].
    eapply IH; [|eassumption].
    eapply handler_pres; [eapply py_index_elem_of| |]; eassumption.
Qed.

Lemma dynamics_slot_pres i e g e' g' :
  J e -> dynamics_slot i (e, g) = Ok (tt, (e', g')) -> J e'.
Proof.
  intros HJ Hrun. destruct (process_table e !! i) as [r|] eqn:Hr.
  - destruct (J_backup e i r HJ Hr) as [b Hb].
    destruct (dynamics_slot_effect i e g r b Hr Hb) as (r' & g1 & Heq & Hp).
    rewrite Heq in Hrun. injection Hrun as <- <-. eapply J_put; eassumption.
  - rewrite (dynamics_slot_no_slot i e g Hr) in Hrun. discriminate.
Qed.

Lemma _apply_process_dynamics_pres e g e' g' :
  J e -> _apply_process_dynamics (e, g) = Ok (tt, (e', g')) -> J e'.
Proof.
  intros HJ Hrun. unfold _apply_process_dynamics, bind, get in Hrun.
  cbn [fst] in Hrun.
  apply (for_each_pres (fun st => J (fst st)) dynamics_slot _) in Hrun;
    [exact Hrun | | exact HJ].
  intros x [e1 g1] [e2 g2]. apply dynamics_slot_pres.
Qed.

Lemma spawn_loop_pres l :
  List.NoDup l ->
  forall e g e' g',
    J e ->
    (forall j r, In j l -> process_table e !! j = Some r -> state r == 0) ->
    for_each l spawn_slot (e, g) = Ok (tt, (e', g')) -> J e'.
Proof.
  induction 1 as [|idx l Hnotin Hnd IH]; intros e g e' g' HJ Hk Hrun; cbn in Hrun.
  - unfold ret in Hrun. now injection Hrun as <- <-.
  - unfold bind in Hrun.
    destruct (spawn_slot idx (e, g)) as [[[] [e1 g1]]|] eqn:Hs; [|discriminate].
    assert (J e1 /\ forall j, j <> idx ->
                      process_table e1 !! j = process_table e !! j) as [HJ1 Hne].
    { destruct (process_table e !! idx) as [r|] eqn:Hr.
      - destruct (J_backup e idx r HJ Hr) as [b Hb].
        destruct (spawn_slot_effect idx e g r b Hr Hb) as (r' & g2 & Heq & Hp).
        rewrite Heq in Hs. injection Hs as <- <-. split.
        + eapply J_put; try eassumption. apply Hp. eapply Hk; [now left | eassumption].
        + intros j Hj. now apply put_slot_lookup_ne.
      - destruct (spawn_slot_no_slot idx e g Hr) as [Heq|[g2 Heq]];
          rewrite Heq in Hs; [discriminate|]. injection Hs as <- <-. auto. }
    eapply IH; [exact HJ1 | | exact Hrun].
    intros j r Hj Hr. apply (Hk j r); [now right|].
    rewrite <- Hne; [assumption|]. intros ->. contradiction.
Qed.

Lemma _spawn_new_process_pres e g e' g' :
  J e -> _spawn_new_process (e, g) = Ok (tt, (e', g')) -> J e'.
Proof.
  intros HJ Hrun. unfold _spawn_new_process, bind, get in Hrun. cbn [fst] in Hrun.
  eapply spawn_loop_pres; [apply killed_indices_NoDup | exact HJ | | exact Hrun].
  intros j r. apply killed_indices_killed.
Qed.

End Preservation.

(** ** The two invariants are slot-wise *)

Lemma Forall2_put_slot (P : ProcessRecord -> ProcessRecord -> Prop) t s i r b r' b' :
  Forall2 P t s -> t !! i = Some r -> s !! i = Some b ->
  (P r b -> P r' b') ->
  Forall2 P (<[i:=r']> t) (<[i:=b']> s).
Proof.
  intros HF Hr Hb HP. apply Forall2_insert; [assumption|].
  apply HP. eapply Forall2_lookup_lr; eassumption.
Qed.

Lemma backup_inv_lengths e :
  backup_inv e -> length (process_table e) = length (swapped_processes e).
Proof. apply Forall2_length. Qed.

Lemma backup_inv_put i r b r' b' e :
  backup_inv e ->
  process_table e !! i = Some r -> swapped_processes e !! i = Some b ->
  slot_pres (ram_usage (system_stats e)) r b r' b' ->
  backup_inv (put_slot i r' b' e).
Proof.
  intros HJ Hr Hb [Hp _]. unfold backup_inv. cbn.
  eapply Forall2_put_slot; eassumption.
Qed.

Lemma Inv_lengths e :
  Inv e -> length (process_table e) = length (swapped_processes e).
Proof. intros (_ & HF & _). eapply Forall2_length; eassumption. Qed.

Lemma Inv_put i r b r' b' e :
  Inv e ->
  process_table e !! i = Some r -> swapped_processes e !! i = Some b ->
  slot_pres (ram_usage (system_stats e)) r b r' b' ->
  Inv (put_slot i r' b' e).
Proof.
  intros (Hlen & HF & Hu) Hr Hb [_ Hp]. unfold Inv. cbn.
  rewrite length_insert. repeat split; try assumption.
  eapply Forall2_put_slot; eauto.
Qed.

Lemma Inv_backup_inv e : Inv e -> backup_inv e.
Proof.
  intros (_ & HF & _). unfold backup_inv.
  eapply Forall2_impl; [eassumption|]. intros r b H. apply H.
Qed.

Lemma framed_lengths s k0 n e :
  framed s k0 n e -> length (process_table e) = length (swapped_processes e).
Proof. intros [H _]. now apply Inv_lengths. Qed.

Lemma framed_put s k0 n i r b r' b' e :
  framed s k0 n e ->
  process_table e !! i = Some r -> swapped_processes e !! i = Some b ->
  slot_pres (ram_usage (system_stats e)) r b r' b' ->
  framed s k0 n (put_slot i r' b' e).
Proof.
  intros (HI & Hs & Hk & Hn) Hr Hb Hp. split; [eapply Inv_put; eassumption|].
  cbn. auto.
Qed.

(** ** Totality of the operations on a table of [k] slots *)

Lemma sized_lengths k0 e :
  sized k0 e -> length (process_table e) = length (swapped_processes e).
Proof. intros (H1 & H2 & _). congruence. Qed.

Lemma sized_put_slot k0 i r' b' e : sized k0 e -> sized k0 (put_slot i r' b' e).
Proof.
  intros (H1 & H2 & H3). unfold sized. cbn. now rewrite !length_insert.
Qed.

Lemma sized_put k0 i r b r' b' e :
  sized k0 e ->
  process_table e !! i = Some r -> swapped_processes e !! i = Some b ->
  slot_pres (ram_usage (system_stats e)) r b r' b' ->
  sized k0 (put_slot i r' b' e).
Proof. intros H _ _ _. now apply sized_put_slot. Qed.

Lemma sized_slot k0 e i :
  sized k0 e -> (i < k0)%nat ->
  exists r b, process_table e !! i = Some r /\ swapped_processes e !! i = Some b.
Proof.
  intros (H1 & H2 & _) Hi.
  destruct (lookup_lt_is_Some_2 (process_table e) i) as [r Hr]; [lia|].
  destruct (lookup_lt_is_Some_2 (swapped_processes e) i) as [b Hb]; [lia|].
  eauto.
Qed.

Lemma Inv_sized e : Inv e -> sized (k e) e.
Proof.
  intros (H1 & HF & _). apply Forall2_length in HF. unfold sized.
  repeat split; congruence.
Qed.

Lemma handler_total k0 h i e :
  h ∈ handlers -> sized k0 e -> (i < k0)%nat ->
  exists rw e', h i e = Ok (rw, e') /\ sized k0 e'.
Proof.
  intros Hh Hs Hi. destruct (sized_slot k0 e i Hs Hi) as (r & b & Hr & Hb).
  destruct (handler_effect h i e r b Hh Hr Hb) as (rw & r' & b' & Heq & Hp).
  exists rw, (put_slot i r' b' e). split; [assumption|].
  eapply sized_put; eassumption.
Qed.

(** Every code in [-8, 7] selects a handler. *)
Lemma py_index_handlers a :
  (-8 <= a <= 7)%Z -> exists h, py_index handlers a = Ok h.
Proof.
  intros Ha.
  assert (a = -8 \/ a = -7 \/ a = -6 \/ a = -5 \/ a = -4 \/ a = -3 \/ a = -2 \/
          a = -1 \/ a = 0 \/ a = 1 \/ a = 2 \/ a = 3 \/ a = 4 \/ a = 5 \/
          a = 6 \/ a = 7)%Z as Hcases by lia.
  repeat (destruct Hcases as [->|Hcases]; [cbn; eauto|]). subst a. cbn. eauto.
Qed.

Lemma apply_actions_total k0 action indices rw0 e :
  sized k0 e ->
  (forall i, In i indices ->
             (i < k0)%nat /\ exists a, action !! i = Some a /\ (-8 <= a <= 7)%Z) ->
  exists rw e', apply_actions action indices rw0 e = Ok (rw, e') /\ sized k0 e'.
Proof.
  revert rw0 e. induction indices as [|i rest IH]; intros rw0 e Hs Hidx; cbn.
  - exists rw0, e. split; [reflexivity | assumption].
  - destruct (Hidx i) as (Hi & a & Ha & Hrange); [now left|].
    rewrite Ha. destruct (py_index_handlers a Hrange) as [h Hh]. rewrite Hh.
    destruct (handler_total k0 h i e) as (local & e1 & Hrun & Hs1);
      [eapply py_index_elem_of; eassumption | assumption | assumption |].
    unfold bind. rewrite Hrun. apply IH; [assumption|].
    intros j Hj. apply Hidx. now right.
Qed.

Lemma _apply_process_dynamics_total k0 e g :
  sized k0 e ->
  exists e' g', _apply_process_dynamics (e, g) = Ok (tt, (e', g')) /\ sized k0 e'.
Proof.
  intros Hs. unfold _apply_process_dynamics, bind, get. cbn [fst].
  destruct (for_each_total (fun st => sized k0 (fst st)) dynamics_slot
              (seq 0 (k e))) with (s := (e, g)) as ([e' g'] & Hrun & Hs');
    [|exact Hs|eauto].
  intros i [e1 g1] Hi Hs1. cbn [fst] in Hs1.
  apply List.in_seq in Hi. destruct Hs as (_ & _ & Hk).
  destruct (sized_slot k0 e1 i Hs1) as (r & b & Hr & Hb); [lia|].
  destruct (dynamics_slot_effect i e1 g1 r b Hr Hb) as (r' & g2 & Heq & Hp).
  exists (put_slot i r' b e1, g2). split; [assumption|].
  cbn [fst]. eapply sized_put; eassumption.
Qed.

Lemma _spawn_new_process_total k0 e g :
  sized k0 e ->
  exists e' g', _spawn_new_process (e, g) = Ok (tt, (e', g')) /\ sized k0 e'.
Proof.
  intros Hs. unfold _spawn_new_process, bind, get. cbn [fst].
  destruct (for_each_total (fun st => sized k0 (fst st)) spawn_slot
              (killed_indices (process_table e))) with (s := (e, g))
    as ([e' g'] & Hrun & Hs'); [|exact Hs|eauto].
  intros i [e1 g1] Hi Hs1. cbn [fst] in Hs1.
  apply killed_indices_lt in Hi. destruct Hs as (Hlen & _ & _).
  destruct (sized_slot k0 e1 i Hs1) as (r & b & Hr & Hb); [lia|].
  destruct (spawn_slot_effect i e1 g1 r b Hr Hb) as (r' & g2 & Heq & Hp).
  exists (put_slot i r' b e1, g2). split; [assumption|].
  cbn [fst]. now apply sized_put_slot.
Qed.

(** ** One step, phase by phase *)

Section EngineProperties.

Variable np_exp : Q -> Q.

Lemma step_eq action e g :
  step np_exp action (e, g) =
    match apply_actions action (seq 0 (k e)) 0
            (with_step (S (current_step e)) e) with
    | Raise x => Raise x
    | Ok (rw, e1) =>
        match _apply_process_dynamics (e1, g) with
        | Raise x => Raise x
        | Ok (_, (e2, g2)) =>
            match _spawn_new_process (e2, g2) with
            | Raise x => Raise x
            | Ok (_, (e3, g3)) =>
                Ok (step_result rw (refresh np_exp e3), (refresh np_exp e3, g3))
            end
        end
    end.
Proof.
  unfold step, bind, on_fst, modify, get, ret, _update_system_stats. env_simpl.
  destruct (apply_actions _ _ _ _) as [[rw e1]|]; [|reflexivity]. env_simpl.
  destruct (_apply_process_dynamics _) as [[[] [e2 g2]]|]; [|reflexivity].
  destruct (_spawn_new_process _) as [[[] [e3 g3]]|]; reflexivity.
Qed.

Lemma telemetry_ram_usage t :
  ram_usage (telemetry np_exp t) = np_clip (np_sum ram t + 0.10) 0 1.
Proof. reflexivity. Qed.

Lemma telemetry_ram_usage_range t : 0 <= ram_usage (telemetry np_exp t) <= 1.
Proof. rewrite telemetry_ram_usage. apply np_clip_range. lra. Qed.

Lemma Inv_with_step n e : Inv e -> Inv (with_step n e).
Proof. intros H. exact H. Qed.

Lemma Inv_refresh_slots e :
  length (process_table e) = k e ->
  Forall2 slot_inv (process_table e) (swapped_processes e) ->
  Inv (refresh np_exp e).
Proof.
  intros H1 H2. unfold Inv, refresh. cbn.
  repeat split; try assumption. apply telemetry_ram_usage_range.
Qed.

Lemma Inv_refresh e : Inv e -> Inv (refresh np_exp e).
Proof. intros (H1 & H2 & _). now apply Inv_refresh_slots. Qed.

(** The three passes keep a slot-wise invariant that ignores the step
    counter and the statistics. *)
Lemma step_pres (J : RamSimEnv -> Prop) action e g out e' g' :
  (forall e, J e -> length (process_table e) = length (swapped_processes e)) ->
  (forall i r b r' b' e,
      J e -> process_table e !! i = Some r -> swapped_processes e !! i = Some b ->
      slot_pres (ram_usage (system_stats e)) r b r' b' -> J (put_slot i r' b' e)) ->
  (forall e, J e -> J (with_step (S (current_step e)) e)) ->
  (forall e, J e -> J (refresh np_exp e)) ->
  J e -> step np_exp action (e, g) = Ok (out, (e', g')) -> J e'.
Proof.
  intros Hlen Hput Hstep Hrefresh HJ Hrun. rewrite step_eq in Hrun.
  destruct (apply_actions _ _ _ _) as [[rw e1]|] eqn:H1; [|discriminate].
  destruct (_apply_process_dynamics _) as [[[] [e2 g2]]|] eqn:H2; [|discriminate].
  destruct (_spawn_new_process _) as [[[] [e3 g3]]|] eqn:H3; [|discriminate].
  injection Hrun as <- <- <-. apply Hrefresh.
  eapply (_spawn_new_process_pres J Hlen Hput); [|eassumption].
  eapply (_apply_process_dynamics_pres J Hlen Hput); [|eassumption].
  eapply (apply_actions_pres J Hlen Hput); [|eassumption].
  now apply Hstep.
Qed.

Lemma step_Inv action e g out e' g' :
  Inv e -> step np_exp action (e, g) = Ok (out, (e', g')) -> Inv e'.
Proof.
  intros HI Hrun.
  eapply (step_pres Inv);
    [apply Inv_lengths | apply Inv_put | | apply Inv_refresh | exact HI | exact Hrun].
  intros e0 H0. now apply Inv_with_step.
Qed.

Lemma step_total action e g :
  sized (k e) e -> well_formed_action (k e) action ->
  exists out e' g', step np_exp action (e, g) = Ok (out, (e', g')).
Proof.
  intros Hs [Hlen Hcodes]. rewrite step_eq.
  destruct (apply_actions_total (k e) action (seq 0 (k e)) 0
              (with_step (S (current_step e)) e)) as (rw & e1 & -> & Hs1).
  { exact Hs. }
  { intros i Hi. apply List.in_seq in Hi. split; [lia|].
    destruct (lookup_lt_is_Some_2 action i) as [a Ha]; [lia|].
    exists a. split; [assumption|].
    pose proof (Forall_lookup_1 _ _ _ _ Hcodes Ha) as Hr. cbn in Hr. lia. }
  destruct (_apply_process_dynamics_total (k e) e1 g Hs1) as (e2 & g2 & -> & Hs2).
  destruct (_spawn_new_process_total (k e) e2 g2 Hs2) as (e3 & g3 & -> & Hs3).
  eauto.
Qed.

End EngineProperties.

(** ** Reset *)

Lemma swap_at_Forall {A} (P : A -> Prop) i j (l : list A) :
  Forall P l -> Forall P (swap_at i j l).
Proof.
  intros HF. unfold swap_at.
  destruct (l !! i) as [x|] eqn:Hx; [|assumption].
  destruct (l !! j) as [y|] eqn:Hy; [|assumption].
  apply Forall_insert; [apply Forall_insert; [assumption|]|].
  - eapply Forall_lookup_1; eassumption.
  - eapply Forall_lookup_1; eassumption.
Qed.

Lemma swap_at_length {A} i j (l : list A) : length (swap_at i j l) = length l.
Proof.
  unfold swap_at. destruct (l !! i); [|reflexivity].
  destruct (l !! j); [|reflexivity]. now rewrite !length_insert.
Qed.

Lemma shuffle_down_ok {A} (P : A -> Prop) i (l : list A) g :
  Forall P l ->
  Forall P (fst (shuffle_down i l g)) /\
  length (fst (shuffle_down i l g)) = length l.
Proof.
  revert l g. induction i as [|i IH]; intros l g HF; cbn.
  - split; [assumption | reflexivity].
  - destruct (next_cell g) as [c g1].
    destruct (IH (swap_at (S i) (N.to_nat (c mod N.of_nat (S (S i)))) l) g1)
      as [H1 H2].
    { now apply swap_at_Forall. }
    split; [assumption|]. now rewrite H2, swap_at_length.
Qed.

Lemma generate_processes_ok kk g ps g' :
  generate_processes kk g = Ok (ps, g') ->
  Forall fresh_row ps /\ length ps = kk.
Proof.
  unfold generate_processes, bind, draw. intros Hrun.
  destruct (randint 0 2 g) as [[hc g1]|] eqn:Hh; [|discriminate].
  destruct (randint 0 2 g1) as [[lc g2]|] eqn:Hl; [|discriminate].
  destruct (randint 0 _ g2) as [[ac g3]|] eqn:Ha; [|discriminate].
  apply randint_range in Hh, Hl, Ha.
  pose proof (sample_rows_ok (reset_ranges heavy) (Z.to_nat hc) g3
                (reset_ranges_ok heavy)) as [Fh Lh].
  destruct (sample_rows (Z.to_nat hc) _ g3) as [hs g4].
  pose proof (sample_rows_ok (reset_ranges leaky) (Z.to_nat lc) g4
                (reset_ranges_ok leaky)) as [Fl Ll].
  destruct (sample_rows (Z.to_nat lc) _ g4) as [ls g5].
  pose proof (sample_rows_ok (reset_ranges active) (Z.to_nat ac) g5
                (reset_ranges_ok active)) as [Fa La].
  destruct (sample_rows (Z.to_nat ac) _ g5) as [acs g6].
  cbn [fst] in *.
  pose proof (sample_rows_ok (reset_ranges idle)
                (kk - length (hs ++ ls ++ acs)) g6
                (reset_ranges_ok idle)) as [Fi Li].
  destruct (sample_rows (kk - _) _ g6) as [ids g7].
  cbn [fst] in *.
  injection Hrun as Hps.
  assert (Hall : Forall fresh_row ((hs ++ ls ++ acs) ++ ids)).
  { repeat apply Forall_app_2; assumption. }
  destruct (shuffle_down_ok fresh_row
              (length ((hs ++ ls ++ acs) ++ ids) - 1)
              ((hs ++ ls ++ acs) ++ ids) g7 Hall) as [H1 H2].
  unfold shuffle in Hps. rewrite Hps in H1, H2. cbn [fst] in H1, H2.
  split; [assumption|]. rewrite H2.
  rewrite !length_app in *. lia.
Qed.

Lemma fresh_slot_inv r : fresh_row r -> slot_inv r zero_row.
Proof.
  intros (Hok & Hst & Hpos). unfold slot_inv, backup_ok, is_zero, unit_interval.
  rewrite Hst. cbn. intuition (try lra).
Qed.

Section ResetProperties.

Variable np_exp : Q -> Q.

Lemma reset_eq seed e0 g :
  reset np_exp seed (e0, g) =
    match generate_processes (k e0) g with
    | Raise x => Raise x
    | Ok ([], _) => Raise IndexError
    | Ok (ps, g') =>
        let e := refresh np_exp
                   (with_swapped (replicate (k e0) zero_row)
                      (with_table ps (with_step 0 (seed_np_random seed e0)))) in
        Ok ((_get_obs e, env_initialized), (e, g'))
    end.
Proof.
  unfold reset, bind, on_fst, on_snd_try, modify, get, ret, raise. env_simpl.
  replace (k (seed_np_random seed e0)) with (k e0) by now destruct seed.
  destruct (generate_processes (k e0) g) as [[ps g']|]; [|reflexivity].
  env_simpl. destruct ps; reflexivity.
Qed.

Lemma reset_Inv seed e0 g obs e g' :
  reset np_exp seed (e0, g) = Ok (obs, (e, g')) -> Inv e /\ k e = k e0.
Proof.
  rewrite reset_eq.
  destruct (generate_processes (k e0) g) as [[ps g1]|] eqn:Hg; [|discriminate].
  apply generate_processes_ok in Hg as [HF Hlen].
  assert (Hk : k (seed_np_random seed e0) = k e0) by now destruct seed.
  destruct ps as [|p ps]; [discriminate|].
  intros [= <- <- <-]. split; [|exact Hk].
  apply Inv_refresh_slots;
    cbn [process_table swapped_processes with_swapped with_table with_step k].
  - now rewrite Hk.
  - apply Forall2_replicate_r; [assumption|].
    eapply Forall_impl; [eassumption|]. intros r. apply fresh_slot_inv.
Qed.

End ResetProperties.

(** * The specification's claims *)

Section Reachability.

Variable np_exp : Q -> Q.

Lemma reachable_Inv e : reachable np_exp e -> Inv e.
Proof.
  induction 1 as [seed e0 g obs e g' Hreset | action e g out e' g' _ IH Hstep].
  - eapply reset_Inv; eassumption.
  - eapply step_Inv; eassumption.
Qed.

Lemma reachable_slot e i r :
  reachable np_exp e -> process_table e !! i = Some r ->
  exists b, swapped_processes e !! i = Some b /\ slot_inv r b.
Proof.
  intros Hreach Hr. destruct (reachable_Inv e Hreach) as (_ & HF & _).
  destruct (Forall2_lookup_l _ _ _ _ _ HF Hr) as (b & Hb & Hs). eauto.
Qed.

(** A handler run from a reachable instance leaves [system_stats] as it
    was when the step started. *)
Lemma handler_keeps_stats h i e rw e' :
  h ∈ handlers -> reachable np_exp e -> h i e = Ok (rw, e') ->
  system_stats e' = system_stats e.
Proof.
  intros Hh Hreach Hrun.
  assert (framed (system_stats e) (k e) (current_step e) e') as (_ & Hs & _).
  { eapply (handler_pres (framed (system_stats e) (k e) (current_step e)));
      [apply framed_lengths | apply framed_put | exact Hh | | exact Hrun].
    repeat split; auto using reachable_Inv; apply reachable_Inv; assumption. }
  exact Hs.
Qed.

(** C10. Killing a Swapped slot returns -2 whatever the backup holds: the
    reward tests read the in-table record, whose RAM is 0.  The record
    and the backup are both zeroed. *)
Theorem kill_swapped_slot e i r b :
  reachable np_exp e ->
  process_table e !! i = Some r -> swapped_processes e !! i = Some b ->
  state r == 0.3 ->
  ram r == 0 /\ cpu r == 0 /\
  _handle_kill i e = Ok (-2, put_slot i zero_row zero_row e).
Proof.
  intros Hreach Hr Hb Hs.
  destruct (reachable_slot e i r Hreach Hr) as (b' & Hb' & Hinv).
  destruct Hinv as (_ & _ & Hzero & _). destruct (Hzero Hs) as [Hram Hcpu].
  repeat split; try assumption.
  unfold _handle_kill. run_handler Hr Hb.
  assert (Hk : Qeq_bool (state r) 0 = false) by (apply Qeq_bool_false; lra).
  rewrite Hk. cbn [negb]. run_handler Hr Hb.
  assert (Hlow : Qlt_bool 0.4 (ram r) = false) by (apply Qlt_bool_false; lra).
  rewrite Hlow. reflexivity.
Qed.

End Reachability.

(** C7 (as amended). On a slot that is not Killed and whose priority is
    below 0.95, renice-increase sets the priority to min(priority + 0.2,
    1.0); the reward is +10 if cpu > 0.5, and otherwise -8 if the old
    priority < 0.2 and ram < 0.1, and otherwise 0.  At or above 0.95 it
    returns -2 and leaves the priority as it is; on a Killed slot it
    returns -5 and changes nothing. *)
Theorem renice_increase_first_match e i r :
  process_table e !! i = Some r ->
  (state r == 0 -> _handle_renice_increase i e = Ok (-5, e)) /\
  (~ state r == 0 -> 0.95 <= priority r ->
   _handle_renice_increase i e = Ok (-2, e)) /\
  (~ state r == 0 -> priority r < 0.95 ->
   exists rw,
     _handle_renice_increase i e =
       Ok (rw, with_table
                 (<[i := Row (ram r) (cpu r)
                           (np_clip (priority r + 0.2) 0.0 1.0) (state r)]>
                    (process_table e)) e) /\
     (0.5 < cpu r -> rw == 10) /\
     (cpu r <= 0.5 -> priority r < 0.2 -> ram r < 0.1 -> rw == -8) /\
     (cpu r <= 0.5 -> ~ (priority r < 0.2 /\ ram r < 0.1) -> rw == 0) /\
     (0 <= priority r ->
      np_clip (priority r + 0.2) 0.0 1.0 == Qmin (priority r + 0.2) 1.0)).
Proof.
  intros Hr. unfold _handle_renice_increase. unfold bind, ret.
  rewrite (table_get_ok _ _ _ Hr). split; [|split].
  - intros Hk. apply Qeq_bool_iff in Hk. now rewrite Hk.
  - intros Hk Hcap. apply Qeq_bool_false in Hk. rewrite Hk.
    apply Qle_bool_iff in Hcap. now rewrite Hcap.
  - intros Hk Hcap. apply Qeq_bool_false in Hk. rewrite Hk.
    apply Qle_bool_false in Hcap. rewrite Hcap.
    rewrite table_set_ok by slot_in_range.
    cbv zeta. eexists. split; [reflexivity|]. repeat split.
    + intros Hc. apply Qlt_bool_iff in Hc. rewrite Hc. lra.
    + intros Hc Hp Hm. apply Qlt_bool_false in Hc. rewrite Hc.
      apply Qlt_bool_iff in Hp, Hm. rewrite Hp, Hm. cbn [andb]. lra.
    + intros Hc Hn. apply Qlt_bool_false in Hc. rewrite Hc.
      destruct (Qlt_bool (priority r) 0.2 && Qlt_bool (ram r) 0.1)%bool eqn:E;
        [|lra].
      apply andb_true_iff in E as [E1 E2]. apply Qlt_bool_iff in E1, E2. tauto.
    + intros Hp. apply np_clip_min. lra.
Qed.

(** C9. The no-op handler returns 0 and changes nothing; with an all
    no-op action vector the handler loop returns reward 0 and the
    instance it was given, and what [step] then does is the dynamics
    pass, the spawn pass and the telemetry recomputation. *)
Theorem noop_step_frame :
  (forall i e, _handle_noop i e = Ok (0, e)) /\
  (forall e n,
      apply_actions (replicate n 7%Z) (seq 0 n) 0 e = Ok (0, e)) /\
  (forall np_exp e g,
      step np_exp (replicate (k e) 7%Z) (e, g) =
        match _apply_process_dynamics (with_step (S (current_step e)) e, g) with
        | Raise x => Raise x
        | Ok (_, (e2, g2)) =>
            match _spawn_new_process (e2, g2) with
            | Raise x => Raise x
            | Ok (_, (e3, g3)) =>
                Ok (step_result 0 (refresh np_exp e3), (refresh np_exp e3, g3))
            end
        end).
Proof.
  assert (Hloop : forall e n l,
             Forall (fun i => (i < n)%nat) l ->
             apply_actions (replicate n 7%Z) l 0 e = Ok (0, e)).
  { intros e n l. induction 1 as [|i l Hi _ IH]; [reflexivity|].
    cbn [apply_actions]. rewrite (lookup_replicate_2 n 7%Z i Hi).
    cbn [py_index handlers]. apply IH. }
  split; [reflexivity|]. split.
  - intros e n. apply Hloop. apply Forall_seq. intros; lia.
  - intros np_exp e g. rewrite step_eq.
    rewrite Hloop; [reflexivity|]. apply Forall_seq. intros; lia.
Qed.

Section Claims.

Variable np_exp : Q -> Q.

(** C6. [step] returns terminated = true exactly when the ram_usage
    recomputed at the end of the step, clip(sum of RAM + 0.10, 0, 1), is
    at least 1.0. *)
Theorem terminated_iff_ram_full action e g out e' g' :
  step np_exp action (e, g) = Ok (out, (e', g')) ->
  let usage := np_clip (np_sum ram (process_table e') + 0.10) 0 1 in
  ram_usage (system_stats e') = usage /\
  ram_usage (obs_system_stats (observation out)) = usage /\
  info_ram_usage (info out) = usage /\
  (terminated out = true <-> 1.0 <= usage) /\
  (usage < 1.0 -> terminated out = false) /\
  truncated out = false.
Proof.
  intros Hrun. rewrite step_eq in Hrun.
  destruct (apply_actions _ _ _ _) as [[rw e1]|]; [|discriminate].
  destruct (_apply_process_dynamics _) as [[[] [e2 g2]]|]; [|discriminate].
  destruct (_spawn_new_process _) as [[[] [e3 g3]]|]; [|discriminate].
  injection Hrun as <- <- <-. cbn.
  repeat split; try reflexivity.
  - apply Qle_bool_iff.
  - apply Qle_bool_iff.
  - intros H. now apply Qle_bool_false.
Qed.

(** C5. In every reachable instance every record has RAM, CPU and
    priority in [0, 1] and a state code among 1.0, 0.6, 0.3 and 0; in
    particular resume and the two renice handlers, run from a reachable
    instance, leave every record so. *)
Theorem reachable_rows_in_range e :
  reachable np_exp e ->
  Forall row_ok (process_table e) /\
  (forall i rw e',
      _handle_resume i e = Ok (rw, e') \/
      _handle_renice_increase i e = Ok (rw, e') \/
      _handle_renice_decrease i e = Ok (rw, e') ->
      Forall row_ok (process_table e')).
Proof.
  intros Hreach. apply reachable_Inv in Hreach.
  assert (Hrows : forall e1, Inv e1 -> Forall row_ok (process_table e1)).
  { intros e1 (_ & HF & _). apply Forall2_Forall_l with (Q := row_ok) in HF.
    - exact HF.
    - apply Forall_true. intros r b H. apply H. }
  split; [now apply Hrows|].
  intros i rw e' Hrun. apply Hrows.
  destruct Hrun as [Hrun|[Hrun|Hrun]];
    (eapply (handler_pres Inv Inv_lengths Inv_put); [|exact Hreach|exact Hrun]);
    apply list_elem_of_In; cbn; tauto.
Qed.

(** C4. In every reachable instance a slot's backup is non-zero iff the
    slot is Swapped (and then the backed-up RAM itself is positive); each
    of the eight handlers, the dynamics pass and the spawn pass keeps
    this. *)
Theorem backup_iff_swapped :
  (forall e, reachable np_exp e ->
             backup_inv e /\
             forall i r b,
               process_table e !! i = Some r ->
               swapped_processes e !! i = Some b ->
               state r == 0.3 -> 0 < ram b) /\
  (forall h i e rw e',
      h ∈ handlers -> backup_inv e -> h i e = Ok (rw, e') -> backup_inv e') /\
  (forall e g e' g',
      backup_inv e -> _apply_process_dynamics (e, g) = Ok (tt, (e', g')) ->
      backup_inv e') /\
  (forall e g e' g',
      backup_inv e -> _spawn_new_process (e, g) = Ok (tt, (e', g')) ->
      backup_inv e').
Proof.
  split; [|split; [|split]].
  - intros e Hreach. apply reachable_Inv in Hreach. split.
    + now apply Inv_backup_inv.
    + intros i r b Hr Hb Hs. destruct Hreach as (_ & HF & _).
      pose proof (Forall2_lookup_lr _ _ _ _ _ _ HF Hr Hb) as Hslot.
      destruct Hslot as (_ & _ & _ & _ & Hpos & _). now apply Hpos.
  - intros h i e rw e' Hh HJ Hrun.
    eapply (handler_pres backup_inv backup_inv_lengths backup_inv_put);
      eassumption.
  - intros e g e' g' HJ Hrun.
    eapply (_apply_process_dynamics_pres backup_inv backup_inv_lengths
              backup_inv_put); eassumption.
  - intros e g e' g' HJ Hrun.
    eapply (_spawn_new_process_pres backup_inv backup_inv_lengths
              backup_inv_put); eassumption.
Qed.

End Claims.

(** C1. A respawn happens when the draw is below 0.05, and a profile
    draw of at least 0.95 selects the leaky profile; the respawned record
    is Running with CPU in [0, 0.05] and priority in [0, 0.2], but its
    RAM is drawn from [0.3, 0.5], not from the [0.6, 0.8] of the reset
    generator.  The bounds of the other three profiles are those of
    reset. *)
Theorem spawn_leaky_ram_range idx e g r :
  process_table e !! idx = Some r ->
  fst (random_sample g) < 0.05 ->
  0.95 <= fst (random_sample (snd (random_sample g))) ->
  (exists r' g',
      spawn_slot idx (e, g) =
        Ok (tt, (with_table (<[idx:=r']> (process_table e)) e, g')) /\
      state r' = 1.0 /\
      0.3 <= ram r' <= 0.5 /\ ~ (0.6 <= ram r' <= 0.8) /\
      0 <= cpu r' <= 0.05 /\ 0 <= priority r' <= 0.2) /\
  (forall p, p <> leaky -> spawn_ranges p = reset_ranges p) /\
  ram_range (spawn_ranges leaky) = (0.3, 0.5) /\
  ram_range (reset_ranges leaky) = (0.6, 0.8).
Proof.
  intros Hr Hu0 Hu1. split; [|split; [|split; reflexivity]].
  2:{ intros [] Hp; try reflexivity. contradiction. }
  unfold spawn_slot. run_world.
  destruct (random_sample g) as [u0 g1]. cbn [fst snd] in *. env_simpl.
  apply Qlt_bool_iff in Hu0. rewrite Hu0. env_simpl.
  unfold choice. pose proof (random_sample_range g1) as Hrange.
  destruct (random_sample g1) as [u1 g2]. cbn [fst] in *.
  cbn [cumsum_from searchsorted_right].
  repeat match goal with
    | |- context [Qle_bool ?c u1] =>
        first [ rewrite (proj2 (Qle_bool_iff c u1)) by lra
              | rewrite (proj2 (Qle_bool_false c u1)) by lra ]
    end.
  cbn [lookup list_lookup]. env_simpl.
  destruct (sample_row_bounds (spawn_ranges leaky) g2) as (H1 & H2 & H3 & H4);
    try (cbn; lra).
  destruct (sample_row (spawn_ranges leaky) g2) as [r' g3]. env_simpl.
  cbn [fst snd spawn_ranges ram_range cpu_range priority_range] in *.
  rewrite table_set_ok by slot_in_range.
  exists r', g3. repeat split; try assumption; try lra.
Qed.

(** ** The claims on the concrete runs *)

Ltac by_computation :=
  vm_compute; first [reflexivity | discriminate | intro; discriminate].

Lemma demo_reset_reachable : reachable exp_taylor demo_reset_env.
Proof.
  eapply (reachable_reset exp_taylor (Some 42%Z) (init 2) []).
  vm_compute. reflexivity.
Qed.

Lemma demo_swapped_reachable : reachable exp_taylor demo_swapped_env.
Proof.
  eapply (reachable_step exp_taylor [1; 1]%Z demo_reset_env []).
  - apply demo_reset_reachable.
  - vm_compute. reflexivity.
Qed.

Lemma overlap_reachable : reachable exp_taylor overlap_env.
Proof.
  eapply (reachable_step exp_taylor [6]%Z overlap_env1 overlap_step2_tape);
    [|vm_compute; reflexivity].
  eapply (reachable_step exp_taylor [6]%Z overlap_env0 overlap_step1_tape);
    [|vm_compute; reflexivity].
  eapply (reachable_reset exp_taylor None (init 1) overlap_reset_tape).
  vm_compute. reflexivity.
Qed.

(** C2. The draws of [reset] do not depend on the seed it is given: the
    observation and the generator state it leaves are the same for any
    two seeds.  Two instances that are reset with the same seed, one
    after the other, draw from successive states of the one generator,
    and their initial process tables differ. *)
Theorem reset_draws_ignore_seed np_exp :
  (forall seed seed' e0 g,
      match reset np_exp seed (e0, g), reset np_exp seed' (e0, g) with
      | Ok (o, (e, g1)), Ok (o', (e', g1')) =>
          o = o' /\ g1 = g1' /\ process_table e = process_table e'
      | Raise x, Raise x' => x = x'
      | _, _ => False
      end) /\
  (exists o1 e1 g1 o2 e2 g2,
      reset np_exp (Some 42%Z) (init 5, shared_tape) = Ok (o1, (e1, g1)) /\
      reset np_exp (Some 42%Z) (init 5, g1) = Ok (o2, (e2, g2)) /\
      obs_process_table (fst o1) <> obs_process_table (fst o2)).
Proof.
  split.
  - intros seed seed' e0 g. rewrite !reset_eq.
    destruct (generate_processes (k e0) g) as [[[|p ps] g1]|]; try reflexivity.
    cbn. auto.
  - do 6 eexists. split; [vm_compute; reflexivity|].
    split; [vm_compute; reflexivity|]. vm_compute. discriminate.
Qed.

Lemma kill_swapped_slot_witness :
  reachable exp_taylor demo_swapped_env /\
  _handle_kill 0 demo_swapped_env =
    Ok (-2, put_slot 0 zero_row zero_row demo_swapped_env).
Proof.
  split; [apply demo_swapped_reachable|].
  eapply (kill_swapped_slot exp_taylor demo_swapped_env 0 _ _
            demo_swapped_reachable eq_refl eq_refl).
  by_computation.
Defined.

Lemma renice_increase_first_match_witness :
  exists r rw e',
    process_table overlap_env !! 0%nat = Some r /\
    _handle_renice_increase 0 overlap_env = Ok (rw, e') /\ rw == 10.
Proof.
  destruct (renice_increase_first_match overlap_env 0 _ eq_refl)
    as (_ & _ & H).
  destruct H as (rw & Hrun & Hcpu & _); [by_computation | by_computation |].
  eexists _, rw, _. split; [reflexivity|]. split; [exact Hrun|].
  apply Hcpu. by_computation.
Defined.

(** C7, as the specification states it, fails on a reachable record with
    cpu > 0.5, old priority < 0.2 and ram < 0.1: the reward is +10, not
    -8 and not 10 - 8. *)
Lemma renice_increase_overlap_reward :
  reachable exp_taylor overlap_env /\
  exists r rw e',
    process_table overlap_env !! 0%nat = Some r /\
    ~ state r == 0 /\ priority r < 0.95 /\
    0.5 < cpu r /\ priority r < 0.2 /\ ram r < 0.1 /\
    _handle_renice_increase 0 overlap_env = Ok (rw, e') /\
    rw == 10 /\ ~ rw == -8 /\ ~ rw == 10 - 8.
Proof.
  split; [apply overlap_reachable|].
  do 3 eexists. split; [reflexivity|].
  repeat apply conj; try by_computation.
Qed.

Lemma terminated_iff_ram_full_witness :
  exists out e' g',
    step exp_taylor [1; 1]%Z (demo_reset_env, []) = Ok (out, (e', g')) /\
    ram_usage (system_stats e') =
      np_clip (np_sum ram (process_table e') + 0.10) 0 1 /\
    terminated out = false.
Proof.
  destruct (step exp_taylor [1; 1]%Z (demo_reset_env, []))
    as [[out [e' g']]|] eqn:Hrun.
  - exists out, e', g'. split; [reflexivity|].
    destruct (terminated_iff_ram_full exp_taylor _ _ _ _ _ _ Hrun)
      as (H1 & _ & _ & _ & H5 & _).
    split; [exact H1|]. apply H5.
    vm_compute in Hrun. injection Hrun as <- <- <-. by_computation.
  - vm_compute in Hrun. discriminate Hrun.
Defined.

Lemma reachable_rows_in_range_witness :
  reachable exp_taylor demo_swapped_env /\
  Forall row_ok (process_table demo_swapped_env).
Proof.
  split; [apply demo_swapped_reachable|].
  apply (reachable_rows_in_range exp_taylor demo_swapped_env
           demo_swapped_reachable).
Defined.

Lemma backup_iff_swapped_witness :
  reachable exp_taylor demo_swapped_env /\ backup_inv demo_swapped_env.
Proof.
  split; [apply demo_swapped_reachable|].
  apply (proj1 (backup_iff_swapped exp_taylor) demo_swapped_env
           demo_swapped_reachable).
Defined.

Lemma spawn_leaky_ram_range_witness :
  exists r' g',
    spawn_slot 0 (init 1, leaky_spawn_tape) =
      Ok (tt, (with_table (<[0%nat:=r']> (process_table (init 1))) (init 1), g')) /\
    0.3 <= ram r' <= 0.5 /\ ~ (0.6 <= ram r' <= 0.8).
Proof.
  destruct (spawn_leaky_ram_range 0 (init 1) leaky_spawn_tape zero_row eq_refl)
    as [(r' & g' & Hrun & _ & Hram & Hnot & _) _];
    [by_computation | by_computation |].
  exists r', g'. auto.
Defined.

(** * Further properties of the engine *)

(** ** Handlers are local to their slot *)

Ltac unfold_handlers :=
  unfold _handle_kill, _handle_swap_out, _handle_swap_in, _handle_suspend,
    _handle_resume, _handle_renice_increase, _handle_renice_decrease,
    _handle_noop.

Lemma handler_local h i e r b :
  h ∈ handlers ->
  process_table e !! i = Some r -> swapped_processes e !! i = Some b ->
  forall rw r' b',
    slot_run h (ram_usage (system_stats e)) r b = (rw, r', b') ->
    h i e = Ok (rw, put_slot i r' b' e).
Proof.
  intros Hh Hr Hb rw r' b' Hrun. apply list_elem_of_In in Hh. cbn in Hh.
  assert (Hr1 : process_table (one_slot (ram_usage (system_stats e)) r b) !! 0%nat = Some r) by reflexivity.
  assert (Hb1 : swapped_processes (one_slot (ram_usage (system_stats e)) r b) !! 0%nat = Some b) by reflexivity.
  unfold slot_run in Hrun.
  destruct Hh as [<-|[<-|[<-|[<-|[<-|[<-|[<-|[<-|[]]]]]]]]];
    revert Hrun; unfold_handlers; run_handler Hr Hb; run_handler Hr1 Hb1;
    unfold one_slot; env_simpl; cbn [ram_usage].
  all: repeat (match goal with
    | |- context [if ?c then _ else _] =>
        lazymatch c with
        | context [if _ then _ else _] => fail
        | _ => destruct c eqn:?
        end
    end;
    fold (one_slot (ram_usage (system_stats e)) r b);
    run_handler Hr Hb; run_handler Hr1 Hb1; unfold one_slot; env_simpl; cbn [ram_usage]).
  all: try (intros [= <- <- <-]).
  all: try (rewrite put_slot_id by assumption; reflexivity).
  all: try reflexivity.
  all: rewrite put_slot_table with (b := b) by assumption; reflexivity.
Qed.

(** ** Slot writes compose *)

Lemma put_slot_lookup_eq i r' b' e r b :
  process_table e !! i = Some r -> swapped_processes e !! i = Some b ->
  process_table (put_slot i r' b' e) !! i = Some r' /\
  swapped_processes (put_slot i r' b' e) !! i = Some b'.
Proof.
  intros Hr Hb. apply lookup_lt_Some in Hr, Hb. cbn.
  now rewrite !list_lookup_insert_eq.
Qed.

Lemma put_slot_swapped_ne i j r' b' e :
  i <> j -> swapped_processes (put_slot i r' b' e) !! j = swapped_processes e !! j.
Proof. intros Hne. cbn. now apply list_lookup_insert_ne. Qed.

Lemma put_slot_put_slot i r1 b1 r2 b2 e :
  put_slot i r2 b2 (put_slot i r1 b1 e) = put_slot i r2 b2 e.
Proof.
  unfold put_slot, with_swapped, with_table. cbn.
  now rewrite !list_insert_insert_eq.
Qed.

Lemma put_slot_comm i j r1 b1 r2 b2 e :
  i <> j ->
  put_slot j r2 b2 (put_slot i r1 b1 e) = put_slot i r1 b1 (put_slot j r2 b2 e).
Proof.
  intros Hne. unfold put_slot, with_swapped, with_table. cbn.
  now rewrite !(list_insert_insert_ne _ i j) by assumption.
Qed.

(** X1. A handler reads nothing but its own slot (the record and its
    backup) and the ram_usage entry of [system_stats]: run on two
    instances that agree on these, at any two indices, it returns the
    same reward and writes the same record and backup, and it writes
    nothing else. *)
Theorem handler_reads_only_its_slot h i j e e2 r b :
  h ∈ handlers ->
  process_table e !! i = Some r -> swapped_processes e !! i = Some b ->
  process_table e2 !! j = Some r -> swapped_processes e2 !! j = Some b ->
  ram_usage (system_stats e2) = ram_usage (system_stats e) ->
  exists rw r' b',
    h i e = Ok (rw, put_slot i r' b' e) /\
    h j e2 = Ok (rw, put_slot j r' b' e2).
Proof.
  intros Hh Hr Hb Hr2 Hb2 Hu.
  destruct (slot_run h (ram_usage (system_stats e)) r b) as [[rw r'] b'] eqn:Hrun.
  exists rw, r', b'. split.
  - eapply handler_local; eassumption.
  - eapply handler_local; try eassumption. now rewrite Hu.
Qed.

(** X2. Handlers applied to two different slots commute: either order
    gives the same two rewards and the same final instance, so the order
    in which [step] walks the action vector does not matter. *)
Theorem handlers_commute_across_slots h1 h2 i j e r1 b1 r2 b2 :
  h1 ∈ handlers -> h2 ∈ handlers -> i <> j ->
  process_table e !! i = Some r1 -> swapped_processes e !! i = Some b1 ->
  process_table e !! j = Some r2 -> swapped_processes e !! j = Some b2 ->
  exists rw1 rw2 e1 e2 e',
    h1 i e = Ok (rw1, e1) /\ h2 j e1 = Ok (rw2, e') /\
    h2 j e = Ok (rw2, e2) /\ h1 i e2 = Ok (rw1, e').
Proof.
  intros Hh1 Hh2 Hne Hr1 Hb1 Hr2 Hb2.
  destruct (slot_run h1 (ram_usage (system_stats e)) r1 b1) as [[rw1 r1'] b1'] eqn:Hrun1.
  destruct (slot_run h2 (ram_usage (system_stats e)) r2 b2) as [[rw2 r2'] b2'] eqn:Hrun2.
  exists rw1, rw2, (put_slot i r1' b1' e), (put_slot j r2' b2' e),
    (put_slot j r2' b2' (put_slot i r1' b1' e)).
  split; [eapply handler_local; eassumption|].
  split.
  - eapply handler_local; try eassumption.
    + now rewrite put_slot_lookup_ne.
    + now rewrite put_slot_swapped_ne.
  - split; [eapply handler_local; eassumption|].
    rewrite put_slot_comm by assumption.
    eapply handler_local; try eassumption.
    + rewrite put_slot_lookup_ne; [assumption | congruence].
    + rewrite put_slot_swapped_ne; [assumption | congruence].
Qed.

Ltac decide_tests :=
  repeat match goal with
    | H : ~ ?a == ?b |- context [Qeq_bool ?a ?b] =>
        rewrite (proj2 (Qeq_bool_false a b) H)
    | |- context [Qeq_bool ?a ?b] =>
        first [ rewrite (proj2 (Qeq_bool_iff a b)) by lra
              | rewrite (proj2 (Qeq_bool_false a b)) by lra ]
    | |- context [Qle_bool ?a ?b] =>
        first [ rewrite (proj2 (Qle_bool_iff a b)) by lra
              | rewrite (proj2 (Qle_bool_false a b)) by lra ]
    | |- context [Qlt_bool ?a ?b] =>
        first [ rewrite (proj2 (Qlt_bool_iff a b)) by lra
              | rewrite (proj2 (Qlt_bool_false a b)) by lra ]
    end.

(** Evaluate [slot_run] of a handler, deciding its tests from the
    hypotheses. *)
Ltac eval_slot_run :=
  lazymatch goal with
  | |- slot_run _ ?u ?r ?b = _ =>
      let Hr1 := fresh "Hr1" in
      let Hb1 := fresh "Hb1" in
      assert (Hr1 : process_table (one_slot u r b) !! 0%nat = Some r)
        by reflexivity;
      assert (Hb1 : swapped_processes (one_slot u r b) !! 0%nat = Some b)
        by reflexivity;
      unfold slot_run; unfold_handlers;
      repeat (run_handler Hr1 Hb1; unfold one_slot; env_simpl;
              cbn [ram_usage ram cpu priority state negb andb];
              decide_tests; cbn [negb andb];
              fold (one_slot u r b));
      unfold one_slot;
      cbn [process_table swapped_processes with_table with_swapped
           lookup list_lookup insert list_insert default from_option id];
      try reflexivity
  end.

(** A handler run on a slot that was just written. *)
Lemma handler_local_after h i e r b r1 b1 rw r' b' :
  h ∈ handlers ->
  process_table e !! i = Some r -> swapped_processes e !! i = Some b ->
  slot_run h (ram_usage (system_stats e)) r1 b1 = (rw, r', b') ->
  h i (put_slot i r1 b1 e) = Ok (rw, put_slot i r' b' e).
Proof.
  intros Hh Hr Hb Hrun.
  destruct (put_slot_lookup_eq i r1 b1 e r b Hr Hb) as [Hr1 Hb1].
  rewrite <- (put_slot_put_slot i r1 b1 r' b' e).
  eapply handler_local; eassumption.
Qed.

Lemma handlers_elem h : In h handlers -> h ∈ handlers.
Proof. apply list_elem_of_In. Qed.

Ltac handler_in := apply handlers_elem; cbn; tauto.

(** X3. Swap-out followed by swap-in on a slot that is neither Swapped
    nor Killed restores the record's RAM, CPU and priority with state
    Running and clears the backup, provided ram_usage plus the record's
    RAM is at most 1; otherwise the swap-in is refused with -10 and the
    slot stays swapped out. *)
Theorem swap_out_in_round_trip i e r b :
  process_table e !! i = Some r -> swapped_processes e !! i = Some b ->
  ~ state r == 0.3 -> ~ state r == 0 ->
  exists rw1 e1,
    _handle_swap_out i e = Ok (rw1, e1) /\
    e1 = put_slot i (Row 0 0 (priority r) 0.3) r e /\
    (ram_usage (system_stats e) + ram r <= 1.0 ->
     exists rw2,
       _handle_swap_in i e1 =
         Ok (rw2, put_slot i (Row (ram r) (cpu r) (priority r) 1.0) zero_row e)) /\
    (1.0 < ram_usage (system_stats e) + ram r ->
     _handle_swap_in i e1 = Ok (-10, e1)).
Proof.
  intros Hr Hb Hs Hk.
  eexists _, (put_slot i (Row 0 0 (priority r) 0.3) r e).
  split; [|split; [reflexivity|split]].
  - eapply (handler_local _handle_swap_out); [handler_in | eassumption..|].
    eval_slot_run.
  - intros Hguard. eexists.
    eapply (handler_local_after _handle_swap_in); [handler_in | eassumption..|].
    eval_slot_run.
  - intros Hguard.
    eapply (handler_local_after _handle_swap_in); [handler_in | eassumption..|].
    eval_slot_run.
Qed.

(** X4. Suspend followed by resume on a slot that is not
    Suspended, Swapped or Killed halves and then doubles the RAM, so
    the RAM and priority come back, the state is Running and the CPU is
    restarted at 0.2, provided ram_usage plus the original RAM is at
    most 1; otherwise the resume is refused with -10. *)
Theorem suspend_resume_round_trip i e r b :
  process_table e !! i = Some r -> swapped_processes e !! i = Some b ->
  ~ state r == 0.6 -> ~ state r == 0.3 -> ~ state r == 0 ->
  exists rw1 e1,
    _handle_suspend i e = Ok (rw1, e1) /\
    e1 = put_slot i (Row (ram r * 0.5) 0 (priority r) 0.6) b e /\
    (ram_usage (system_stats e) + ram r <= 1.0 ->
     exists rw2 r2,
       _handle_resume i e1 = Ok (rw2, put_slot i r2 b e) /\
       ram r2 == ram r /\ cpu r2 = 0.2 /\
       priority r2 = priority r /\ state r2 = 1.0) /\
    (1.0 < ram_usage (system_stats e) + ram r ->
     _handle_resume i e1 = Ok (-10, e1)).
Proof.
  intros Hr Hb Hs1 Hs2 Hk.
  eexists _, (put_slot i (Row (ram r * 0.5) 0 (priority r) 0.6) b e).
  split; [|split; [reflexivity|split]].
  - eapply (handler_local _handle_suspend); [handler_in | eassumption..|].
    eval_slot_run.
  - intros Hguard. eexists _, (Row (ram r * 0.5 * 2) 0.2 (priority r) 1.0).
    split; [|cbn; repeat split; lra].
    eapply (handler_local_after _handle_resume); [handler_in | eassumption..|].
    eval_slot_run.
  - intros Hguard.
    eapply (handler_local_after _handle_resume); [handler_in | eassumption..|].
    eval_slot_run.
Qed.

(** Case analysis of [slot_run] over the eight handlers and their tests. *)
Ltac slot_run_cases Hh u r b :=
  let Hr1 := fresh "Hr1" in
  let Hb1 := fresh "Hb1" in
  assert (Hr1 : process_table (one_slot u r b) !! 0%nat = Some r) by reflexivity;
  assert (Hb1 : swapped_processes (one_slot u r b) !! 0%nat = Some b) by reflexivity;
  apply list_elem_of_In in Hh; cbn in Hh;
  destruct Hh as [<-|[<-|[<-|[<-|[<-|[<-|[<-|[<-|[]]]]]]]]];
  unfold slot_run; unfold_handlers;
  run_handler Hr1 Hb1; unfold one_slot; env_simpl; cbn [ram_usage];
  repeat (match goal with
          | |- context [if ?c then _ else _] =>
              lazymatch c with
              | context [if _ then _ else _] => fail
              | _ => destruct c eqn:?
              end
          end;
          fold (one_slot u r b);
          run_handler Hr1 Hb1; unfold one_slot; env_simpl; cbn [ram_usage]);
  cbn [process_table swapped_processes with_table with_swapped
       lookup list_lookup insert list_insert default from_option id fst snd].

Lemma slot_run_reward_range h u r b :
  h ∈ handlers -> slot_inv r b ->
  -15 <= fst (fst (slot_run h u r b)) <= 20.
Proof.
  intros Hh Hinv. slot_run_cases Hh u r b.
  all: bool_hyps;
    unfold slot_inv, row_ok, unit_interval in Hinv;
    cbn [fst snd]; lra.
Qed.

Lemma slot_run_ram h u r b :
  h ∈ handlers -> slot_inv r b ->
  ram (snd (fst (slot_run h u r b))) <= ram r \/
  u + ram (snd (fst (slot_run h u r b))) <= 1.0.
Proof.
  intros Hh Hinv. slot_run_cases Hh u r b.
  all: bool_hyps;
    unfold slot_inv, row_ok, unit_interval in Hinv;
    cbn [fst snd ram zero_row]; lra.
Qed.

Lemma np_sum_insert (f : ProcessRecord -> Q) t i r r' :
  t !! i = Some r ->
  np_sum f (<[i:=r']> t) == np_sum f t - f r + f r'.
Proof.
  unfold np_sum. revert i.
  induction t as [|x t IH]; intros [|i] Hr; try discriminate.
  - injection Hr as ->. cbn [insert list_insert fold_right]. lra.
  - cbn [insert list_insert fold_right]. rewrite (IH i Hr). lra.
Qed.

Section ExtraReachability.

Variable np_exp : Q -> Q.

(** X5. After any handler on a slot of a reachable instance the sum of
    the RAM column has changed by exactly the change of that slot's RAM,
    and the slot's RAM has either not grown or fits: the ram_usage the
    handler read plus the new RAM is at most 1. *)
Theorem handlers_ram_accounting h i e r rw e' :
  h ∈ handlers -> reachable np_exp e ->
  process_table e !! i = Some r -> h i e = Ok (rw, e') ->
  exists r',
    process_table e' !! i = Some r' /\
    np_sum ram (process_table e') == np_sum ram (process_table e) - ram r + ram r' /\
    (ram r' <= ram r \/ ram_usage (system_stats e) + ram r' <= 1.0).
Proof.
  intros Hh Hreach Hr Hrun.
  destruct (reachable_slot np_exp e i r Hreach Hr) as (b & Hb & Hinv).
  destruct (slot_run h (ram_usage (system_stats e)) r b) as [[rw1 r'] b'] eqn:Hs.
  rewrite (handler_local h i e r b Hh Hr Hb rw1 r' b' Hs) in Hrun.
  injection Hrun as <- <-. exists r'.
  destruct (put_slot_lookup_eq i r' b' e r b Hr Hb) as [Hr' _].
  split; [assumption|]. split.
  - cbn. now apply np_sum_insert.
  - pose proof (slot_run_ram h (ram_usage (system_stats e)) r b Hh Hinv) as H.
    now rewrite Hs in H.
Qed.

Lemma reachable_stats_fresh e :
  reachable np_exp e -> system_stats e = telemetry np_exp (process_table e).
Proof.
  intros Hreach. inversion Hreach as [seed e0 g obs e1 g' Hrun | action e0 g out e1 g' _ Hrun];
    subst.
  - rewrite reset_eq in Hrun.
    destruct (generate_processes (k e0) g) as [[[|p ps] g1]|]; try discriminate.
    now injection Hrun as <- <- <-.
  - rewrite step_eq in Hrun.
    destruct (apply_actions _ _ _ _) as [[rw e1']|]; [|discriminate].
    destruct (_apply_process_dynamics _) as [[[] [e2 g2]]|]; [|discriminate].
    destruct (_spawn_new_process _) as [[[] [e3 g3]]|]; [|discriminate].
    now injection Hrun as <- <- <-.
Qed.

End ExtraReachability.

Lemma np_sum_nonneg (f : ProcessRecord -> Q) t :
  Forall (fun r => 0 <= f r) t -> 0 <= np_sum f t.
Proof.
  unfold np_sum. induction 1 as [|x t Hx _ IH]; cbn [fold_right]; lra.
Qed.

Lemma np_sum_le_length (f : ProcessRecord -> Q) t :
  Forall (fun r => f r <= 1) t -> np_sum f t <= inject_Z (Z.of_nat (length t)).
Proof.
  unfold np_sum. induction 1 as [|x t Hx _ IH].
  - apply Qle_refl.
  - cbn [fold_right length]. rewrite Nat2Z.inj_succ. unfold Z.succ.
    rewrite inject_Z_plus. change (inject_Z 1) with 1. lra.
Qed.

Lemma sigmoid_range (x : Q) : 0 <= x -> 0 < 1 / (1 + x) <= 1.
Proof.
  intros Hx. split.
  - apply Qlt_shift_div_l; lra.
  - apply Qle_shift_div_r; lra.
Qed.

Lemma np_clip_spec x lo hi :
  lo <= hi ->
  (x <= lo /\ np_clip x lo hi == lo) \/
  (lo <= x <= hi /\ np_clip x lo hi == x) \/
  (hi <= x /\ np_clip x lo hi == hi).
Proof.
  intros Hlh. unfold np_clip.
  destruct (Q.max_spec x lo) as [[H1 E1]|[H1 E1]];
    destruct (Q.min_spec (Qmax x lo) hi) as [[H2 E2]|[H2 E2]];
    rewrite E2; rewrite ?E1 in *; lra.
Qed.

(** Replace every clip and maximum of the goal by a variable with its
    case analysis. *)
Ltac clip_cases :=
  repeat match goal with
    | |- context [?x / ?c] =>
        let H := fresh "Hdiv" in
        assert (H := Qmult_div_r x c ltac:(lra));
        revert H; generalize (x / c); intro
    | |- context [np_clip ?x ?lo ?hi] =>
        let H := fresh "Hclip" in
        assert (H := np_clip_spec x lo hi ltac:(lra));
        revert H; generalize (np_clip x lo hi); intro
    | |- context [Qmax ?x ?y] =>
        let H := fresh "Hmax" in
        assert (H := Q.max_spec x y);
        revert H; generalize (Qmax x y); intro
    end;
  intros.

Section Telemetry.

Variable np_exp : Q -> Q.

Lemma telemetry_range t :
  Forall (fun r => 0 <= ram r) t ->
  let s := telemetry np_exp t in
  0.1 <= ram_usage s <= 1 /\
  0 <= cpu_usage s <= 1 /\
  0 <= swap_usage s <= 1 /\
  0.27 <= power s <= 1 /\
  (0 < swap_usage s -> ram_usage s == 1) /\
  (ram_usage s < 1 -> ram_usage s == np_sum ram t + 0.10) /\
  ((forall x, 0 <= np_exp x) -> 0 < page_faults s <= 1).
Proof.
  intros Hram. pose proof (np_sum_nonneg ram t Hram) as Hsum.
  unfold telemetry. cbn [ram_usage cpu_usage swap_usage power page_faults].
  set (total := np_sum ram t + 0.10) in *.
  assert (Htot : 0.1 <= total) by (subst total; lra). clearbody total.
  refine (conj _ (conj _ (conj _ (conj _ (conj _ (conj _ _)))))).
  - clip_cases. lra.
  - clip_cases. lra.
  - clip_cases. lra.
  - clip_cases. lra.
  - clip_cases. lra.
  - clip_cases. lra.
  - intros Hexp. apply sigmoid_range, Hexp.
Qed.

(** X6. [_update_system_stats] on a table with non-negative RAM leaves
    the tables and the step counter alone and writes statistics with
    ram_usage in [0.1, 1], cpu_usage and swap_usage in [0, 1] and power
    in [0.27, 1]; swap_usage is positive only when ram_usage is 1, below
    1 ram_usage is the RAM sum plus the 0.10 base load, and page_faults
    is in (0, 1] for a non-negative exponential. *)
Theorem update_system_stats_bounds e :
  Forall (fun r => 0 <= ram r) (process_table e) ->
  exists e',
    _update_system_stats np_exp e = Ok (tt, e') /\
    process_table e' = process_table e /\
    swapped_processes e' = swapped_processes e /\
    current_step e' = current_step e /\
    let s := system_stats e' in
    0.1 <= ram_usage s <= 1 /\
    0 <= cpu_usage s <= 1 /\
    0 <= swap_usage s <= 1 /\
    0.27 <= power s <= 1 /\
    (0 < swap_usage s -> ram_usage s == 1) /\
    (ram_usage s < 1 -> ram_usage s == np_sum ram (process_table e) + 0.10) /\
    ((forall x, 0 <= np_exp x) -> 0 < page_faults s <= 1).
Proof.
  intros Hram. eexists. split; [reflexivity|].
  split; [reflexivity|]. split; [reflexivity|]. split; [reflexivity|].
  exact (telemetry_range (process_table e) Hram).
Qed.

Lemma global_reward_bounds e :
  Forall row_ok (process_table e) ->
  system_stats e = telemetry np_exp (process_table e) ->
  (forall x, 0 <= np_exp x) ->
  -5 <= _calculate_global_reward e <=
    0.692 + 0.3 * inject_Z (Z.of_nat (length (process_table e))).
Proof.
  intros Hrows Hfresh Hexp.
  assert (Hram : Forall (fun r => 0 <= ram r) (process_table e)).
  { eapply Forall_impl; [exact Hrows|]. intros r H. apply H. }
  destruct (telemetry_range (process_table e) Hram)
    as (Hru & Hcu & Hsw & Hpw & _ & _ & Hpf).
  specialize (Hpf Hexp). cbv zeta in *. rewrite <- Hfresh in *.
  unfold _calculate_global_reward.
  set (qos := np_sum _ (process_table e)).
  assert (Hq0 : 0 <= qos).
  { apply np_sum_nonneg. eapply Forall_impl; [exact Hrows|].
    intros r (_ & _ & [H1 H2] & _). cbv beta.
    destruct (Qeq_bool (state r) 1.0); lra. }
  assert (Hq1 : qos <= inject_Z (Z.of_nat (length (process_table e)))).
  { apply np_sum_le_length. eapply Forall_impl; [exact Hrows|].
    intros r (_ & _ & [H1 H2] & _). cbv beta.
    destruct (Qeq_bool (state r) 1.0); lra. }
  clearbody qos. cbv zeta.
  destruct (Qle_bool 0.9 (ram_usage (system_stats e))); lra.
Qed.

Lemma apply_actions_reward_range action indices rw0 e rw e' :
  Inv e -> apply_actions action indices rw0 e = Ok (rw, e') ->
  Inv e' /\
  rw0 - 15 * inject_Z (Z.of_nat (length indices)) <= rw <=
    rw0 + 20 * inject_Z (Z.of_nat (length indices)).
Proof.
  revert rw0 e. induction indices as [|i rest IH]; intros rw0 e HI Hrun;
    cbn [apply_actions] in Hrun.
  - unfold ret in Hrun. injection Hrun as <- <-. split; [assumption|].
    change (inject_Z (Z.of_nat (length (@nil nat)))) with 0. lra.
  - destruct (action !! i) as [a|]; [|discriminate].
    destruct (py_index handlers a) as [h|] eqn:Hh; [|discriminate].
    apply py_index_elem_of in Hh.
    unfold bind in Hrun. destruct (h i e) as [[local e1]|] eqn:Hi; [|discriminate].
    assert (Hlocal : Inv e1 /\ -15 <= local <= 20).
    { split; [eapply (handler_pres Inv Inv_lengths Inv_put); eassumption|].
      destruct (process_table e !! i) as [r|] eqn:Hr.
      - destruct HI as (_ & HF & _).
        destruct (Forall2_lookup_l _ _ _ _ _ HF Hr) as (b & Hb & Hinv).
        destruct (slot_run h (ram_usage (system_stats e)) r b) as [[rw1 r'] b'] eqn:Hs.
        rewrite (handler_local h i e r b Hh Hr Hb rw1 r' b' Hs) in Hi.
        injection Hi as <- <-.
        pose proof (slot_run_reward_range h (ram_usage (system_stats e)) r b Hh Hinv) as H.
        now rewrite Hs in H.
      - destruct (handler_no_slot h i e Hh Hr) as [Heq|Heq];
          rewrite Heq in Hi; [discriminate|]. injection Hi as <- <-. lra. }
    destruct Hlocal as [HI1 Hlocal].
    destruct (IH _ _ HI1 Hrun) as [HI' Hrw]. split; [assumption|].
    cbn [length]. rewrite Nat2Z.inj_succ. unfold Z.succ.
    rewrite inject_Z_plus. change (inject_Z 1) with 1. lra.
Qed.

(** X7. The reward of a [step] from a reachable instance of [k] slots
    lies between -(15 k + 5) and 20.3 k + 0.692, for a non-negative
    exponential. *)
Theorem step_reward_bounded action e g out e' g' :
  (forall x, 0 <= np_exp x) ->
  reachable np_exp e ->
  step np_exp action (e, g) = Ok (out, (e', g')) ->
  - (15 * inject_Z (Z.of_nat (k e)) + 5) <= step_reward out <=
    20.3 * inject_Z (Z.of_nat (k e)) + 0.692.
Proof.
  intros Hexp Hreach Hrun. apply reachable_Inv in Hreach.
  assert (HI' : Inv e') by (eapply step_Inv; eassumption).
  assert (Hs' : sized (k e) e').
  { eapply (step_pres np_exp (sized (k e)) action e g);
      [apply sized_lengths | apply sized_put | | | apply Inv_sized, Hreach
      | exact Hrun]; intros e0 H0; exact H0. }
  rewrite step_eq in Hrun.
  destruct (apply_actions _ _ _ _) as [[rw e1]|] eqn:H1; [|discriminate].
  destruct (_apply_process_dynamics _) as [[[] [e2 g2]]|] eqn:H2; [|discriminate].
  destruct (_spawn_new_process _) as [[[] [e3 g3]]|] eqn:H3; [|discriminate].
  injection Hrun as <- <- <-.
  apply apply_actions_reward_range in H1 as [_ Hrw]; [|exact Hreach].
  rewrite length_seq in Hrw.
  assert (Hrows : Forall row_ok (process_table (refresh np_exp e3))).
  { destruct HI' as (_ & HF & _).
    apply Forall2_Forall_l with (Q := row_ok) in HF; [exact HF|].
    apply Forall_true. intros r b H. apply H. }
  pose proof (global_reward_bounds (refresh np_exp e3) Hrows eq_refl Hexp) as Hg.
  destruct Hs' as (Hlen & _). rewrite Hlen in Hg.
  cbn [step_reward step_result]. lra.
Qed.

(** X8. In a reachable instance [system_stats] is never stale: it is the
    telemetry of the current process table, with every entry in its
    range. *)
Theorem reachable_stats_fresh_and_bounded e :
  reachable np_exp e ->
  let s := system_stats e in
  s = telemetry np_exp (process_table e) /\
  0.1 <= ram_usage s <= 1 /\
  0 <= cpu_usage s <= 1 /\
  0 <= swap_usage s <= 1 /\
  0.27 <= power s <= 1 /\
  ((forall x, 0 <= np_exp x) -> 0 < page_faults s <= 1).
Proof.
  intros Hreach. pose proof (reachable_stats_fresh np_exp e Hreach) as Hfresh.
  apply reachable_Inv in Hreach. destruct Hreach as (_ & HF & _).
  assert (Hram : Forall (fun r => 0 <= ram r) (process_table e)).
  { apply Forall2_Forall_l with (Q := fun r => 0 <= ram r) in HF; [exact HF|].
    apply Forall_true. intros r b H. apply H. }
  destruct (telemetry_range (process_table e) Hram)
    as (H1 & H2 & H3 & H4 & _ & _ & H7).
  cbv zeta in *. rewrite <- Hfresh in *. tauto.
Qed.

(** X9. When a [step] from a reachable instance does not terminate, the
    observed ram_usage is exactly the RAM sum of the new table plus the
    0.10 base load and the observed swap_usage is 0; a positive
    swap_usage is only ever observed together with terminated = true. *)
Theorem non_terminal_step_reports_exact_ram action e g out e' g' :
  reachable np_exp e ->
  step np_exp action (e, g) = Ok (out, (e', g')) ->
  let s := obs_system_stats (observation out) in
  (terminated out = false ->
   ram_usage s == np_sum ram (process_table e') + 0.10 /\ swap_usage s == 0) /\
  (0 < swap_usage s -> terminated out = true).
Proof.
  intros Hreach Hrun.
  assert (Hreach' : reachable np_exp e') by (eapply reachable_step; eassumption).
  pose proof (reachable_stats_fresh np_exp e' Hreach') as Hfresh.
  apply reachable_Inv in Hreach'. destruct Hreach' as (_ & HF & _).
  assert (Hram : Forall (fun r => 0 <= ram r) (process_table e')).
  { apply Forall2_Forall_l with (Q := fun r => 0 <= ram r) in HF; [exact HF|].
    apply Forall_true. intros r b H. apply H. }
  destruct (telemetry_range (process_table e') Hram)
    as (H1 & _ & H3 & _ & H5 & H6 & _).
  cbv zeta in *. rewrite <- Hfresh in *.
  rewrite step_eq in Hrun.
  destruct (apply_actions _ _ _ _) as [[rw e1]|]; [|discriminate].
  destruct (_apply_process_dynamics _) as [[[] [e2 g2]]|]; [|discriminate].
  destruct (_spawn_new_process _) as [[[] [e3 g3]]|]; [|discriminate].
  injection Hrun as <- <- <-.
  cbn [observation step_result obs_system_stats _get_obs terminated] in *.
  split.
  - intros Hterm. apply Qle_bool_false in Hterm.
    split; [apply H6; lra|].
    destruct (Qlt_le_dec 0 (swap_usage (system_stats (refresh np_exp e3))))
      as [Hpos|Hle]; [|lra].
    apply H5 in Hpos. lra.
  - intros Hpos. apply H5 in Hpos. apply Qle_bool_iff. lra.
Qed.

End Telemetry.

(** ** The dynamics and spawn passes, slot by slot *)

Lemma with_table_lookup_ne i j r' e :
  i <> j ->
  process_table (with_table (<[i:=r']> (process_table e)) e) !! j =
    process_table e !! j.
Proof. intros Hne. cbn. now apply list_lookup_insert_ne. Qed.

(** A pass that, at each index of a duplicate-free list, rewrites at most
    that row relates every row of the table to its row afterwards. *)
Lemma pass_rows (R : ProcessRecord -> ProcessRecord -> Prop)
      (body : nat -> M (RamSimEnv * rng) unit) (l : list nat) :
  List.NoDup l ->
  (forall i e g e' g',
      body i (e, g) = Ok (tt, (e', g')) ->
      forall r, process_table e !! i = Some r ->
      exists r', e' = with_table (<[i:=r']> (process_table e)) e /\ R r r') ->
  forall e g e' g',
    for_each l body (e, g) = Ok (tt, (e', g')) ->
    (forall i, In i l -> (i < length (process_table e))%nat) ->
    swapped_processes e' = swapped_processes e /\
    system_stats e' = system_stats e /\
    k e' = k e /\ current_step e' = current_step e /\
    np_random e' = np_random e /\
    length (process_table e') = length (process_table e) /\
    forall j r,
      process_table e !! j = Some r ->
      exists r', process_table e' !! j = Some r' /\
                 (In j l -> R r r') /\ (~ In j l -> r' = r).
Proof.
  intros Hnd Hbody. induction Hnd as [|i l Hnotin Hnd IH];
    intros e g e' g' Hrun Hlt; cbn [for_each] in Hrun.
  - unfold ret in Hrun. injection Hrun as <- <-.
    repeat apply conj; try reflexivity. intros j r Hr. exists r.
    split; [assumption|]. split; [intros [] | reflexivity].
  - unfold bind in Hrun.
    destruct (body i (e, g)) as [[[] [e1 g1]]|] eqn:Hi; [|discriminate].
    destruct (lookup_lt_is_Some_2 (process_table e) i) as [ri Hri].
    { apply Hlt. now left. }
    destruct (Hbody _ _ _ _ _ Hi ri Hri) as (ri' & -> & HR).
    destruct (IH _ _ _ _ Hrun) as (H1 & H2 & H3 & H4 & H5 & H6 & H7).
    { intros j Hj. cbn. rewrite length_insert. apply Hlt. now right. }
    cbn in H1, H2, H3, H4, H5, H6. rewrite length_insert in H6.
    repeat apply conj; try assumption.
    intros j r Hr. destruct (decide (j = i)) as [->|Hne].
    + assert (Hri1 : process_table
                       (with_table (<[i:=ri']> (process_table e)) e) !! i =
                     Some ri').
      { cbn. apply list_lookup_insert_eq. eapply lookup_lt_Some; eassumption. }
      destruct (H7 i ri' Hri1) as (r' & Hr' & _ & Hsame).
      rewrite (Hsame Hnotin) in Hr'. rewrite Hri in Hr. injection Hr as <-.
      exists ri'. split; [assumption|]. split; [intros _; exact HR|].
      intros Hn. exfalso. apply Hn. now left.
    + assert (Hr1 : process_table
                      (with_table (<[i:=ri']> (process_table e)) e) !! j =
                    Some r).
      { rewrite with_table_lookup_ne; [assumption | congruence]. }
      destruct (H7 j r Hr1) as (r' & Hr' & Hin & Hnin).
      exists r'. split; [assumption|]. split.
      * intros [Heq|Hj]; [congruence | auto].
      * intros Hn. apply Hnin. intros Hj. apply Hn. now right.
Qed.

Lemma with_table_id i r e :
  process_table e !! i = Some r ->
  with_table (<[i:=r]> (process_table e)) e = e.
Proof.
  intros Hr. destruct e. unfold with_table. cbn in *. now rewrite list_insert_id.
Qed.

Lemma dynamics_slot_rel i e g e' g' r :
  dynamics_slot i (e, g) = Ok (tt, (e', g')) ->
  process_table e !! i = Some r ->
  exists r', e' = with_table (<[i:=r']> (process_table e)) e /\ dynamics_rel r r'.
Proof.
  intros Hrun Hr. revert Hrun. unfold dynamics_slot. run_world.
  rewrite (table_get_ok _ _ _ Hr). env_simpl.
  destruct (Qeq_bool (state r) 1.0) eqn:Hst; env_simpl.
  2:{ intros [= <- <-]. exists r. split; [now rewrite with_table_id|].
      apply Qeq_bool_false in Hst. split; [reflexivity | contradiction]. }
  apply Qeq_bool_iff in Hst.
  assert (Hj : -0.05 <= fst (uniform (-0.05) 0.05 g) <= 0.05)
    by (apply uniform_range; lra).
  destruct (uniform (-0.05) 0.05 g) as [cpu_jitter g1]. cbn [fst] in Hj. env_simpl.
  destruct (Qlt_bool 0.6 (ram r) && Qlt_bool (cpu r) 0.1) eqn:Hleak;
    env_simpl;
    match goal with
    | |- context [uniform ?lo ?hi g1] =>
        let Hu := fresh "Hu" in
        assert (Hu : lo <= fst (uniform lo hi g1) <= hi)
          by (apply uniform_range; lra);
        destruct (uniform lo hi g1) as [a g2]; cbn [fst] in Hu
    end;
    env_simpl;
    rewrite table_set_ok by slot_in_range; env_simpl;
    destruct (random_sample g2) as [u g3]; env_simpl;
    (destruct (Qlt_bool u 0.02); env_simpl;
     [ rewrite table_set_ok by slot_in_range; env_simpl;
       rewrite list_insert_insert_eq;
       intros [= <- <-]; exists zero_row
     | intros [= <- <-]; eexists (Row _ _ (priority r) (state r)) ]);
    (split; [reflexivity|]);
    (split; [intros Hn; contradiction|]); intros _;
    try (left; reflexivity); right; cbn [ram cpu priority state];
    (split; [reflexivity|]); (split; [reflexivity|]);
    (split; [exists cpu_jitter; split; [exact Hj | reflexivity]|]);
    (split; intros Hsig;
     first [ exists a; split; [exact Hu | reflexivity]
           | exfalso; apply Hsig; bool_hyps; split; assumption
           | exfalso; destruct Hsig;
             apply andb_false_iff in Hleak as [Hleak|Hleak]; bool_hyps; lra ]).
Qed.

Lemma spawn_slot_rel idx e g e' g' r :
  spawn_slot idx (e, g) = Ok (tt, (e', g')) ->
  process_table e !! idx = Some r ->
  exists r',
    e' = with_table (<[idx:=r']> (process_table e)) e /\
    (r' = r \/ (state r' = 1.0 /\ exists p, in_ranges (spawn_ranges p) r')).
Proof.
  intros Hrun Hr. revert Hrun. unfold spawn_slot. run_world.
  destruct (random_sample g) as [u g1]. env_simpl.
  destruct (Qlt_bool u 0.05); env_simpl.
  2:{ intros [= <- <-]. exists r. split; [now rewrite with_table_id | now left]. }
  destruct (choice_profile_ok g1) as (p & g2 & ->). env_simpl.
  destruct (spawn_ranges_ok p) as (_ & (_ & H1 & _) & (_ & H2 & _) & (_ & H3 & _)).
  destruct (sample_row_bounds (spawn_ranges p) g2 H1 H2 H3) as (B1 & B2 & B3 & B4).
  destruct (sample_row (spawn_ranges p) g2) as [r' g3]. env_simpl.
  cbn [fst] in B1, B2, B3, B4.
  rewrite table_set_ok by slot_in_range.
  intros [= <- <-]. exists r'. split; [reflexivity|]. right.
  split; [assumption|]. exists p. repeat apply conj; tauto.
Qed.

(** X10. [_apply_process_dynamics] leaves the backups and the statistics
    alone and every record that is not Running unchanged; a Running
    record either crashes to the zero record or keeps its state and
    priority, gets the CPU clip(cpu + j, 0.01, 0.95) for a jitter j in
    [-0.05, 0.05], and gets the RAM clip(ram + l, 0, 1) for a growth l in
    [0.01, 0.06] on the leak signature (RAM > 0.6 and CPU < 0.1 before
    the pass) and clip(ram + j, 0.01, 0.95) for a jitter j in
    [-0.02, 0.02] otherwise. *)
Theorem dynamics_pass_rows e g e' g' :
  length (process_table e) = k e ->
  _apply_process_dynamics (e, g) = Ok (tt, (e', g')) ->
  swapped_processes e' = swapped_processes e /\
  system_stats e' = system_stats e /\
  length (process_table e') = length (process_table e) /\
  forall j r,
    process_table e !! j = Some r ->
    exists r', process_table e' !! j = Some r' /\ dynamics_rel r r'.
Proof.
  intros Hlen Hrun. unfold _apply_process_dynamics, bind, get in Hrun.
  cbn [fst] in Hrun.
  destruct (pass_rows dynamics_rel dynamics_slot (seq 0 (k e))
              (List.seq_NoDup _ _)) with (e := e) (g := g) (e' := e') (g' := g')
    as (H1 & H2 & _ & _ & _ & H6 & H7).
  - intros i e0 g0 e1 g1 Hi r Hr. eapply dynamics_slot_rel; eassumption.
  - exact Hrun.
  - intros i Hi. apply List.in_seq in Hi. lia.
  - repeat apply conj; try assumption.
    intros j r Hr. destruct (H7 j r Hr) as (r' & Hr' & Hin & _).
    exists r'. split; [assumption|]. apply Hin. apply List.in_seq.
    apply lookup_lt_Some in Hr. lia.
Qed.

(** X11. [_spawn_new_process] leaves the backups, the statistics and
    every record that is not Killed unchanged; a Killed record stays as
    it is or is replaced by a Running record within the spawn bounds of
    one of the four profiles. *)
Theorem spawn_pass_rows e g e' g' :
  _spawn_new_process (e, g) = Ok (tt, (e', g')) ->
  swapped_processes e' = swapped_processes e /\
  system_stats e' = system_stats e /\
  length (process_table e') = length (process_table e) /\
  forall j r,
    process_table e !! j = Some r ->
    exists r', process_table e' !! j = Some r' /\ spawn_rel r r'.
Proof.
  intros Hrun. unfold _spawn_new_process, bind, get in Hrun. cbn [fst] in Hrun.
  destruct (pass_rows
              (fun r r' => r' = r \/
                 (state r' = 1.0 /\ exists p, in_ranges (spawn_ranges p) r'))
              spawn_slot (killed_indices (process_table e))
              (killed_indices_NoDup _)) with (e := e) (g := g) (e' := e') (g' := g')
    as (H1 & H2 & _ & _ & _ & H6 & H7).
  - intros i e0 g0 e1 g1 Hi r Hr. eapply spawn_slot_rel; eassumption.
  - exact Hrun.
  - intros i. apply killed_indices_lt.
  - repeat apply conj; try assumption.
    intros j r Hr. destruct (H7 j r Hr) as (r' & Hr' & Hin & Hnin).
    exists r'. split; [assumption|]. split.
    + intros Hs. apply Hnin. intros Hj. apply Hs.
      eapply killed_indices_killed; eassumption.
    + intros Hs. apply Hin. unfold killed_indices. apply List.filter_In. split.
      * apply List.in_seq. apply lookup_lt_Some in Hr. lia.
      * rewrite Hr. now apply Qeq_bool_iff.
Qed.

(** ** The action vector *)

Lemma py_index_raises {A} (l : list A) a x : py_index l a = Raise x -> x = IndexError.
Proof.
  unfold py_index. destruct (_ && _)%bool; [|now intros [= <-]].
  destruct (l !! _); [discriminate | now intros [= <-]].
Qed.

Lemma py_index_handlers_out a :
  (a < -8 \/ 7 < a)%Z -> py_index handlers a = Raise IndexError.
Proof.
  intros Ha. unfold py_index. change (Z.of_nat (length handlers)) with 8%Z.
  destruct (a <? 0)%Z eqn:Hneg;
    [apply Z.ltb_lt in Hneg | apply Z.ltb_ge in Hneg].
  - replace (0 <=? a + 8)%Z with false by (symmetry; apply Z.leb_gt; lia).
    reflexivity.
  - replace (a <? 8)%Z with false by (symmetry; apply Z.ltb_ge; lia).
    now rewrite andb_false_r.
Qed.

Lemma py_index_alias a : py_index handlers (alias_code a) = py_index handlers a.
Proof.
  unfold alias_code.
  destruct ((-8 <=? a)%Z && (a <? 0)%Z)%bool eqn:Hrange; [|reflexivity].
  apply andb_true_iff in Hrange as [H1 H2].
  apply Z.leb_le in H1. apply Z.ltb_lt in H2.
  assert (a = -8 \/ a = -7 \/ a = -6 \/ a = -5 \/ a = -4 \/ a = -3 \/
          a = -2 \/ a = -1)%Z as Hcases by lia.
  repeat (destruct Hcases as [->|Hcases]; [reflexivity|]). now subst a.
Qed.

Lemma apply_actions_alias action indices rw0 e :
  apply_actions (map alias_code action) indices rw0 e =
    apply_actions action indices rw0 e.
Proof.
  revert rw0 e. induction indices as [|i rest IH]; intros rw0 e; [reflexivity|].
  cbn [apply_actions]. rewrite list_lookup_fmap.
  destruct (action !! i) as [a|]; cbn [fmap option_fmap option_map]; [|reflexivity].
  rewrite py_index_alias. destruct (py_index handlers a) as [h|]; [|reflexivity].
  unfold bind. destruct (h i e) as [[local e1]|]; [apply IH | reflexivity].
Qed.

Lemma apply_actions_prefix action extra indices rw0 e :
  Forall (fun i => (i < length action)%nat) indices ->
  apply_actions (action ++ extra) indices rw0 e =
    apply_actions action indices rw0 e.
Proof.
  intros Hidx. revert rw0 e.
  induction Hidx as [|i rest Hi _ IH]; intros rw0 e; [reflexivity|].
  cbn [apply_actions]. rewrite lookup_app_l by assumption.
  destruct (action !! i) as [a|]; [|reflexivity].
  destruct (py_index handlers a) as [h|]; [|reflexivity].
  unfold bind. destruct (h i e) as [[local e1]|]; [apply IH | reflexivity].
Qed.

Lemma apply_actions_raises k0 action indices rw0 e :
  sized k0 e ->
  Forall (fun i => (i < k0)%nat) indices ->
  (exists i, In i indices /\
             (action !! i = None \/
              exists a, action !! i = Some a /\ (a < -8 \/ 7 < a)%Z)) ->
  apply_actions action indices rw0 e = Raise IndexError.
Proof.
  intros Hs Hidx. revert rw0 e Hs.
  induction Hidx as [|i rest Hi _ IH]; intros rw0 e Hs (i0 & Hin & Hbad).
  - destruct Hin.
  - cbn [apply_actions].
    destruct (action !! i) as [a|] eqn:Ha; [|reflexivity].
    destruct (py_index handlers a) as [h|x] eqn:Hh.
    2:{ apply py_index_raises in Hh. now subst x. }
    destruct (handler_total k0 h i e) as (local & e1 & Hrun & Hs1);
      [eapply py_index_elem_of; eassumption | assumption | assumption |].
    unfold bind. rewrite Hrun. apply IH; [assumption|].
    destruct Hin as [<-|Hin]; [|eauto].
    exfalso. destruct Hbad as [Hnone|(a' & Ha' & Hout)]; [congruence|].
    rewrite Ha in Ha'. injection Ha' as <-.
    rewrite (py_index_handlers_out a Hout) in Hh. discriminate.
Qed.

Section ActionVector.

Variable np_exp : Q -> Q.

(** X12. [step] indexes the handler list as Python does: an action code
    a in [-8, -1] runs the handler of code a + 8, so an action vector
    and its image under that renaming give the same result. *)
Theorem negative_codes_alias action e g :
  step np_exp (map alias_code action) (e, g) = step np_exp action (e, g).
Proof. rewrite !step_eq. now rewrite apply_actions_alias. Qed.

(** X13. [step] reads only the first [k] entries of the action vector:
    entries appended to a vector of at least [k] entries change
    nothing. *)
Theorem extra_action_entries_ignored action extra e g :
  (k e <= length action)%nat ->
  step np_exp (action ++ extra) (e, g) = step np_exp action (e, g).
Proof.
  intros Hk. rewrite !step_eq. rewrite apply_actions_prefix; [reflexivity|].
  apply Forall_seq. intros j Hj. cbn [k with_step] in Hj. lia.
Qed.

(** X14. From a reachable instance, [step] raises [IndexError] when the
    action vector is too short for some slot or holds a code below -8
    or above 7 at some slot. *)
Theorem malformed_action_raises action e g i :
  reachable np_exp e ->
  (i < k e)%nat ->
  (action !! i = None \/
   exists a, action !! i = Some a /\ (a < -8 \/ 7 < a)%Z) ->
  step np_exp action (e, g) = Raise IndexError.
Proof.
  intros Hreach Hi Hbad. rewrite step_eq.
  assert (Hs : sized (k e) e)
    by (apply Inv_sized, reachable_Inv with np_exp; exact Hreach).
  rewrite (apply_actions_raises (k e)); [reflexivity | | | ].
  - exact Hs.
  - apply Forall_seq. intros j Hj. cbn [k with_step] in *. lia.
  - exists i. split; [|exact Hbad]. apply List.in_seq. cbn [k with_step]. lia.
Qed.

(** X15. A successful [step] keeps [k], the seeded generator and the
    sizes of both tables, advances the step counter by exactly one,
    reports the new counter in [info] and returns the observation of the
    instance it leaves. *)
Theorem step_frame action e g out e' g' :
  length (process_table e) = length (swapped_processes e) ->
  step np_exp action (e, g) = Ok (out, (e', g')) ->
  k e' = k e /\
  current_step e' = S (current_step e) /\
  np_random e' = np_random e /\
  length (process_table e') = length (process_table e) /\
  length (swapped_processes e') = length (swapped_processes e) /\
  info_step (info out) = S (current_step e) /\
  observation out = _get_obs e'.
Proof.
  intros Hlen Hrun.
  set (J := fun e1 : RamSimEnv =>
              length (process_table e1) = length (process_table e) /\
              length (swapped_processes e1) = length (swapped_processes e) /\
              k e1 = k e /\ current_step e1 = S (current_step e) /\
              np_random e1 = np_random e).
  assert (HJl : forall e1, J e1 ->
                length (process_table e1) = length (swapped_processes e1)).
  { intros e1 (H1 & H2 & _). congruence. }
  assert (HJp : forall i r b r' b' e1,
             J e1 -> process_table e1 !! i = Some r ->
             swapped_processes e1 !! i = Some b ->
             slot_pres (ram_usage (system_stats e1)) r b r' b' ->
             J (put_slot i r' b' e1)).
  { intros i r b r' b' e1 (H1 & H2 & H3) _ _ _. unfold J. cbn.
    now rewrite !length_insert. }
  rewrite step_eq in Hrun.
  destruct (apply_actions _ _ _ _) as [[rw e1]|] eqn:H1; [|discriminate].
  destruct (_apply_process_dynamics _) as [[[] [e2 g2]]|] eqn:H2; [|discriminate].
  destruct (_spawn_new_process _) as [[[] [e3 g3]]|] eqn:H3; [|discriminate].
  injection Hrun as <- <- <-.
  assert (HJ3 : J e3).
  { eapply (_spawn_new_process_pres J HJl HJp); [|eassumption].
    eapply (_apply_process_dynamics_pres J HJl HJp); [|eassumption].
    eapply (apply_actions_pres J HJl HJp); [|eassumption].
    unfold J. cbn. auto. }
  destruct HJ3 as (A1 & A2 & A3 & A4 & A5). cbn. auto 10.
Qed.

End ActionVector.

(** ** Reset *)

Lemma sample_rows_in_ranges p n g :
  Forall profile_row (fst (sample_rows n (reset_ranges p) g)).
Proof.
  revert g. induction n as [|n IH]; intros g; cbn [sample_rows].
  - constructor.
  - destruct (reset_ranges_ok p) as (_ & (_ & H1 & _) & (_ & H2 & _) & (_ & H3 & _)).
    destruct (sample_row_bounds (reset_ranges p) g H1 H2 H3) as (B1 & B2 & B3 & B4).
    destruct (sample_row (reset_ranges p) g) as [r g1]. cbn [fst] in *.
    specialize (IH g1). destruct (sample_rows n (reset_ranges p) g1) as [rest g2].
    cbn [fst] in *. constructor; [|assumption].
    split; [assumption|]. exists p. repeat apply conj; tauto.
Qed.

Lemma generate_processes_rows kk g ps g' :
  generate_processes kk g = Ok (ps, g') -> Forall profile_row ps.
Proof.
  unfold generate_processes, bind, draw. intros Hrun.
  destruct (randint 0 2 g) as [[hc g1]|]; [|discriminate].
  destruct (randint 0 2 g1) as [[lc g2]|]; [|discriminate].
  destruct (randint 0 _ g2) as [[ac g3]|]; [|discriminate].
  pose proof (sample_rows_in_ranges heavy (Z.to_nat hc) g3) as Fh.
  destruct (sample_rows (Z.to_nat hc) _ g3) as [hs g4].
  pose proof (sample_rows_in_ranges leaky (Z.to_nat lc) g4) as Fl.
  destruct (sample_rows (Z.to_nat lc) _ g4) as [ls g5].
  pose proof (sample_rows_in_ranges active (Z.to_nat ac) g5) as Fa.
  destruct (sample_rows (Z.to_nat ac) _ g5) as [acs g6].
  cbn [fst] in *.
  pose proof (sample_rows_in_ranges idle (kk - length (hs ++ ls ++ acs)) g6) as Fi.
  destruct (sample_rows (kk - _) _ g6) as [ids g7].
  cbn [fst] in *. injection Hrun as Hps.
  assert (Hall : Forall profile_row ((hs ++ ls ++ acs) ++ ids)).
  { repeat apply Forall_app_2; assumption. }
  destruct (shuffle_down_ok profile_row
              (length ((hs ++ ls ++ acs) ++ ids) - 1)
              ((hs ++ ls ++ acs) ++ ids) g7 Hall) as [H1 _].
  unfold shuffle in Hps. rewrite Hps in H1. exact H1.
Qed.

Lemma randint_ok lo hi g :
  (lo < hi)%Z -> exists n g', randint lo hi g = Ok (n, g').
Proof.
  intros Hlt. unfold randint.
  destruct (hi <=? lo)%Z eqn:E; [apply Z.leb_le in E; lia|].
  destruct (next_cell g) as [c g']. eauto.
Qed.

Lemma generate_processes_total kk g :
  (2 <= kk)%nat -> exists ps g', generate_processes kk g = Ok (ps, g').
Proof.
  intros Hk. unfold generate_processes, bind, draw.
  destruct (randint_ok 0 2 g) as (hc & g1 & Hh); [lia|]. rewrite Hh.
  destruct (randint_ok 0 2 g1) as (lc & g2 & Hl); [lia|]. rewrite Hl.
  apply randint_range in Hh, Hl.
  destruct (randint_ok 0 (Z.of_nat kk - hc - lc + 1) g2) as (ac & g3 & Ha);
    [lia|]. rewrite Ha.
  destruct (sample_rows (Z.to_nat hc) _ g3) as [hs g4].
  destruct (sample_rows (Z.to_nat lc) _ g4) as [ls g5].
  destruct (sample_rows (Z.to_nat ac) _ g5) as [acs g6].
  destruct (sample_rows (kk - _) _ g6) as [ids g7].
  destruct (shuffle _ g7) as [ps g8]. eauto.
Qed.

Section ResetExtras.

Variable np_exp : Q -> Q.

(** X16. On an instance of at least two slots [reset] always succeeds,
    whatever the generator state: it leaves [k] Running records, each
    within the bounds of one of the four profiles, all backups zero, the
    step counter 0 and statistics that are the telemetry of the new
    table, and it returns the observation of that instance. *)
Theorem reset_succeeds_from_two_slots seed e0 g :
  (2 <= k e0)%nat ->
  exists obs e g',
    reset np_exp seed (e0, g) = Ok ((obs, env_initialized), (e, g')) /\
    obs = _get_obs e /\
    k e = k e0 /\ current_step e = 0%nat /\
    length (process_table e) = k e0 /\
    Forall profile_row (process_table e) /\
    swapped_processes e = replicate (k e0) zero_row /\
    system_stats e = telemetry np_exp (process_table e) /\
    np_random e = match seed with Some s => Some s | None => np_random e0 end.
Proof.
  intros Hk. rewrite reset_eq.
  destruct (generate_processes_total (k e0) g Hk) as (ps & g1 & Hgen).
  rewrite Hgen.
  destruct (generate_processes_ok _ _ _ _ Hgen) as [_ Hlen].
  pose proof (generate_processes_rows _ _ _ _ Hgen) as Hrows.
  destruct ps as [|p ps]; [cbn in Hlen; lia|].
  eexists _, _, _. split; [reflexivity|].
  cbn [process_table swapped_processes system_stats current_step k np_random
       refresh with_stats with_swapped with_table with_step].
  repeat apply conj; try reflexivity; try assumption;
    destruct seed; reflexivity.
Qed.

(** X17. On an instance of no slots [reset] never succeeds: it raises
    for every generator state. *)
Theorem reset_raises_without_slots seed e0 g :
  k e0 = 0%nat -> exists x, reset np_exp seed (e0, g) = Raise x.
Proof.
  intros Hk. rewrite reset_eq.
  destruct (generate_processes (k e0) g) as [[ps g1]|x] eqn:Hgen; [|eauto].
  destruct (generate_processes_ok _ _ _ _ Hgen) as [_ Hlen].
  rewrite Hk in Hlen. destruct ps; [eauto | discriminate].
Qed.

(** X18. On an instance of one slot [reset] raises [ValueError] exactly
    when both the heavy and the leaky count are drawn as 1 (the first
    two cells of the generator are odd), because the active count is
    then drawn from an empty interval. *)
Theorem reset_one_slot_value_error seed e0 c0 c1 g :
  k e0 = 1%nat ->
  (reset np_exp seed (e0, c0 :: c1 :: g) = Raise ValueError <->
   (Z.of_N c0 mod 2 = 1 /\ Z.of_N c1 mod 2 = 1)%Z).
Proof.
  intros Hk. rewrite reset_eq, Hk.
  unfold generate_processes, bind, draw.
  unfold randint at 1 2. cbn [Z.leb Z.compare next_cell].
  rewrite !Z.add_0_l, !Z.sub_0_r.
  pose proof (Z.mod_pos_bound (Z.of_N c0) 2) as B0.
  pose proof (Z.mod_pos_bound (Z.of_N c1) 2) as B1.
  set (h := (Z.of_N c0 mod 2)%Z) in *. set (l := (Z.of_N c1 mod 2)%Z) in *.
  unfold randint.
  destruct (Z.of_nat 1 - h - l + 1 <=? 0)%Z eqn:E.
  - apply Z.leb_le in E. split; [intros _; lia | reflexivity].
  - apply Z.leb_gt in E. split; [|lia]. intros Hrun. exfalso.
    destruct (next_cell g) as [c g3].
    set (ac := (0 + Z.of_N c mod (Z.of_nat 1 - h - l + 1 - 0))%Z) in *.
    destruct (sample_rows (Z.to_nat h) _ g3) as [hs g4].
    destruct (sample_rows (Z.to_nat l) _ g4) as [ls g5].
    destruct (sample_rows (Z.to_nat ac) _ g5) as [acs g6].
    destruct (sample_rows (1 - _) _ g6) as [ids g7].
    destruct (shuffle _ g7) as [[|p ps] g8]; discriminate.
Qed.

End ResetExtras.

(** ** Renice *)

Ltac slot_run_of u r b :=
  let Hr1 := fresh "Hr1" in
  let Hb1 := fresh "Hb1" in
  assert (Hr1 : process_table (one_slot u r b) !! 0%nat = Some r) by reflexivity;
  assert (Hb1 : swapped_processes (one_slot u r b) !! 0%nat = Some b) by reflexivity;
  unfold slot_run; unfold_handlers;
  run_handler Hr1 Hb1; unfold one_slot; env_simpl; cbn [ram_usage];
  repeat (match goal with
          | |- context [if ?c then _ else _] =>
              lazymatch c with
              | context [if _ then _ else _] => fail
              | _ => destruct c eqn:?
              end
          end;
          fold (one_slot u r b);
          run_handler Hr1 Hb1; unfold one_slot; env_simpl; cbn [ram_usage]);
  cbn [process_table swapped_processes with_table with_swapped
       lookup list_lookup insert list_insert default from_option id fst snd].

Lemma renice_increase_slot u r b :
  0 <= priority r <= 1 ->
  let '(rw, r', b') := slot_run _handle_renice_increase u r b in
  b' = b /\ ram r' = ram r /\ cpu r' = cpu r /\ state r' = state r /\
  priority r <= priority r' <= 1 /\ priority r' <= priority r + 0.2 /\
  (~ state r == 0 -> priority r < 0.8 -> priority r' == priority r + 0.2).
Proof.
  intros Hp. slot_run_of u r b.
  all: cbn [ram cpu priority state]; bool_hyps;
    repeat apply conj; try reflexivity; try lra; try (intros; lra);
    try (clip_cases; lra).
Qed.

Lemma renice_decrease_slot u r b :
  0 <= priority r <= 1 ->
  let '(rw, r', b') := slot_run _handle_renice_decrease u r b in
  b' = b /\ ram r' = ram r /\ cpu r' = cpu r /\ state r' = state r /\
  0 <= priority r' <= priority r /\ priority r - 0.2 <= priority r' /\
  (~ state r == 0 -> 0.2 <= priority r -> priority r' == priority r - 0.2).
Proof.
  intros Hp. slot_run_of u r b.
  all: cbn [ram cpu priority state]; bool_hyps;
    repeat apply conj; try reflexivity; try lra; try (intros; lra);
    try (clip_cases; lra).
Qed.

(** X19. The two renice handlers change nothing but the priority of
    their slot, and move it by at most 0.2 in their own direction within
    [0, 1]: renice-increase (handler 5) never lowers it and adds exactly
    0.2 on a live record below 0.8, renice-decrease (handler 6) never
    raises it and subtracts exactly 0.2 on a live record at or above
    0.2. *)
Theorem renice_moves_priority_only i e r b :
  process_table e !! i = Some r -> swapped_processes e !! i = Some b ->
  0 <= priority r <= 1 ->
  (exists rw r',
      _handle_renice_increase i e = Ok (rw, put_slot i r' b e) /\
      ram r' = ram r /\ cpu r' = cpu r /\ state r' = state r /\
      priority r <= priority r' <= 1 /\ priority r' <= priority r + 0.2 /\
      (~ state r == 0 -> priority r < 0.8 -> priority r' == priority r + 0.2)) /\
  (exists rw r',
      _handle_renice_decrease i e = Ok (rw, put_slot i r' b e) /\
      ram r' = ram r /\ cpu r' = cpu r /\ state r' = state r /\
      0 <= priority r' <= priority r /\ priority r - 0.2 <= priority r' /\
      (~ state r == 0 -> 0.2 <= priority r -> priority r' == priority r - 0.2)).
Proof.
  intros Hr Hb Hp. split.
  - pose proof (renice_increase_slot (ram_usage (system_stats e)) r b Hp) as H.
    destruct (slot_run _handle_renice_increase _ r b) as [[rw r'] b'] eqn:Hs.
    destruct H as (-> & H). exists rw, r'. split; [|exact H].
    eapply handler_local; [handler_in | eassumption..].
  - pose proof (renice_decrease_slot (ram_usage (system_stats e)) r b Hp) as H.
    destruct (slot_run _handle_renice_decrease _ r b) as [[rw r'] b'] eqn:Hs.
    destruct H as (-> & H). exists rw, r'. split; [|exact H].
    eapply handler_local; [handler_in | eassumption..].
Qed.

(** X20. A renice applied while a process is swapped out is lost:
    swap-out, then either renice handler, then swap-in restores the
    priority the record had before the swap-out, since swap-in
    overwrites the record with the backup. *)
Theorem renice_while_swapped_is_discarded h i e r b :
  h = _handle_renice_increase \/ h = _handle_renice_decrease ->
  process_table e !! i = Some r -> swapped_processes e !! i = Some b ->
  ~ state r == 0.3 -> ~ state r == 0 ->
  0 <= priority r <= 1 ->
  ram_usage (system_stats e) + ram r <= 1.0 ->
  exists rw1 e1 rw2 e2 rw3,
    _handle_swap_out i e = Ok (rw1, e1) /\
    h i e1 = Ok (rw2, e2) /\
    _handle_swap_in i e2 =
      Ok (rw3, put_slot i (Row (ram r) (cpu r) (priority r) 1.0) zero_row e).
Proof.
  intros Hh Hr Hb Hs Hk Hp Hguard.
  set (r1 := Row 0 0 (priority r) 0.3).
  assert (Hp1 : 0 <= priority r1 <= 1) by exact Hp.
  assert (H1 : exists rw1, _handle_swap_out i e = Ok (rw1, put_slot i r1 r e)).
  { eexists. eapply (handler_local _handle_swap_out); [handler_in | eassumption..|].
    eval_slot_run. }
  destruct H1 as [rw1 H1].
  assert (H2 : exists rw2 r2,
             h i (put_slot i r1 r e) = Ok (rw2, put_slot i r2 r e) /\
             state r2 = 0.3).
  { destruct Hh as [-> | ->].
    - pose proof (renice_increase_slot (ram_usage (system_stats e)) r1 r Hp1) as H.
      destruct (slot_run _handle_renice_increase _ r1 r) as [[rw2 r2] b2] eqn:Hs2.
      destruct H as (-> & _ & _ & Hst & _). exists rw2, r2. split; [|exact Hst].
      eapply handler_local_after; [handler_in | eassumption..].
    - pose proof (renice_decrease_slot (ram_usage (system_stats e)) r1 r Hp1) as H.
      destruct (slot_run _handle_renice_decrease _ r1 r) as [[rw2 r2] b2] eqn:Hs2.
      destruct H as (-> & _ & _ & Hst & _). exists rw2, r2. split; [|exact Hst].
      eapply handler_local_after; [handler_in | eassumption..]. }
  destruct H2 as (rw2 & r2 & H2 & Hst).
  eexists rw1, _, rw2, _, _. split; [exact H1|]. split; [exact H2|].
  eapply (handler_local_after _handle_swap_in); [handler_in | eassumption..|].
  destruct r2 as [a2 c2 p2 s2]. cbn in Hst. subst s2. eval_slot_run.
Qed.

(** ** The properties on the concrete runs *)

Lemma exp_taylor_nonneg x : 0 <= exp_taylor x.
Proof.
  unfold exp_taylor.
  assert (H : 1 + x + x * x / 2 == ((x + 1) * (x + 1) + 1) / 2) by field.
  rewrite H. apply Qle_shift_div_l; [lra|]. nra.
Qed.

Lemma handler_reads_only_its_slot_witness :
  exists rw r' b',
    _handle_swap_in 0 demo_swapped_env =
      Ok (rw, put_slot 0 r' b' demo_swapped_env) /\
    _handle_swap_in 1 demo_mirrored_env =
      Ok (rw, put_slot 1 r' b' demo_mirrored_env).
Proof.
  eapply (handler_reads_only_its_slot _handle_swap_in 0 1
            demo_swapped_env demo_mirrored_env);
    [handler_in | by_computation ..].
Defined.

Lemma handlers_commute_across_slots_witness :
  exists rw1 rw2 e1 e2 e',
    _handle_kill 0 demo_swapped_env = Ok (rw1, e1) /\
    _handle_swap_in 1 e1 = Ok (rw2, e') /\
    _handle_swap_in 1 demo_swapped_env = Ok (rw2, e2) /\
    _handle_kill 0 e2 = Ok (rw1, e').
Proof.
  eapply (handlers_commute_across_slots _handle_kill _handle_swap_in 0 1
            demo_swapped_env);
    [handler_in | handler_in | lia | by_computation ..].
Defined.

Lemma swap_out_in_round_trip_witness :
  exists r rw1 rw2 e1,
    process_table demo_reset_env !! 0%nat = Some r /\
    _handle_swap_out 0 demo_reset_env = Ok (rw1, e1) /\
    _handle_swap_in 0 e1 =
      Ok (rw2, put_slot 0 (Row (ram r) (cpu r) (priority r) 1.0) zero_row
                 demo_reset_env).
Proof.
  destruct (swap_out_in_round_trip 0 demo_reset_env _ _ eq_refl eq_refl)
    as (rw1 & e1 & H1 & _ & H2 & _); [by_computation | by_computation |].
  destruct H2 as [rw2 H2]; [by_computation|].
  eexists _, rw1, rw2, e1. split; [reflexivity|]. split; [exact H1 | exact H2].
Defined.

Lemma suspend_resume_round_trip_witness :
  exists r rw1 rw2 e1 r2,
    process_table demo_reset_env !! 0%nat = Some r /\
    _handle_suspend 0 demo_reset_env = Ok (rw1, e1) /\
    _handle_resume 0 e1 = Ok (rw2, put_slot 0 r2 zero_row demo_reset_env) /\
    ram r2 == ram r /\ state r2 = 1.0.
Proof.
  destruct (suspend_resume_round_trip 0 demo_reset_env _ _ eq_refl eq_refl)
    as (rw1 & e1 & H1 & _ & H2 & _);
    [by_computation | by_computation | by_computation |].
  destruct H2 as (rw2 & r2 & H2 & Hram & _ & _ & Hst); [by_computation|].
  eexists _, rw1, rw2, e1, r2. split; [reflexivity|]. auto.
Defined.

Lemma handlers_ram_accounting_witness :
  reachable exp_taylor demo_swapped_env /\
  exists r rw e' r',
    process_table demo_swapped_env !! 0%nat = Some r /\
    _handle_swap_in 0 demo_swapped_env = Ok (rw, e') /\
    process_table e' !! 0%nat = Some r' /\
    np_sum ram (process_table e') ==
      np_sum ram (process_table demo_swapped_env) - ram r + ram r'.
Proof.
  split; [apply demo_swapped_reachable|].
  destruct (_handle_swap_in 0 demo_swapped_env) as [[rw e']|] eqn:Hrun;
    [|vm_compute in Hrun; discriminate Hrun].
  destruct (handlers_ram_accounting exp_taylor _handle_swap_in 0
              demo_swapped_env _ rw e' ltac:(handler_in)
              demo_swapped_reachable eq_refl Hrun) as (r' & Hr' & Hsum & _).
  eexists _, rw, e', r'. split; [reflexivity|]. auto.
Defined.

Lemma update_system_stats_bounds_witness :
  exists e',
    _update_system_stats exp_taylor demo_reset_env = Ok (tt, e') /\
    0.1 <= ram_usage (system_stats e') <= 1 /\
    0 < page_faults (system_stats e') <= 1.
Proof.
  destruct (update_system_stats_bounds exp_taylor demo_reset_env)
    as (e' & Hrun & _ & _ & _ & Hram & _ & _ & _ & _ & _ & Hpf).
  - repeat constructor; by_computation.
  - exists e'. split; [exact Hrun|]. split; [exact Hram|].
    apply Hpf, exp_taylor_nonneg.
Defined.

Lemma step_reward_bounded_witness :
  exists out e' g',
    step exp_taylor [1; 1]%Z (demo_reset_env, []) = Ok (out, (e', g')) /\
    - (15 * 2 + 5) <= step_reward out <= 20.3 * 2 + 0.692.
Proof.
  destruct (step exp_taylor [1; 1]%Z (demo_reset_env, []))
    as [[out [e' g']]|] eqn:Hrun; [|vm_compute in Hrun; discriminate Hrun].
  exists out, e', g'. split; [reflexivity|].
  exact (step_reward_bounded exp_taylor _ _ _ _ _ _ exp_taylor_nonneg
           demo_reset_reachable Hrun).
Defined.

Lemma reachable_stats_fresh_and_bounded_witness :
  reachable exp_taylor demo_swapped_env /\
  system_stats demo_swapped_env =
    telemetry exp_taylor (process_table demo_swapped_env) /\
  0.1 <= ram_usage (system_stats demo_swapped_env) <= 1.
Proof.
  split; [apply demo_swapped_reachable|].
  destruct (reachable_stats_fresh_and_bounded exp_taylor demo_swapped_env
              demo_swapped_reachable) as (H1 & H2 & _).
  split; [exact H1 | exact H2].
Defined.

Lemma non_terminal_step_reports_exact_ram_witness :
  exists out e' g',
    step exp_taylor [1; 1]%Z (demo_reset_env, []) = Ok (out, (e', g')) /\
    terminated out = false /\
    ram_usage (obs_system_stats (observation out)) ==
      np_sum ram (process_table e') + 0.10.
Proof.
  destruct (step exp_taylor [1; 1]%Z (demo_reset_env, []))
    as [[out [e' g']]|] eqn:Hrun; [|vm_compute in Hrun; discriminate Hrun].
  exists out, e', g'. split; [reflexivity|].
  destruct (non_terminal_step_reports_exact_ram exp_taylor _ _ _ _ _ _
              demo_reset_reachable Hrun) as [H _].
  assert (Hterm : terminated out = false)
    by (vm_compute in Hrun; injection Hrun as <- <- <-; by_computation).
  split; [exact Hterm|]. apply H, Hterm.
Defined.

Lemma dynamics_pass_rows_witness :
  exists e' g',
    _apply_process_dynamics (demo_reset_env, []) = Ok (tt, (e', g')) /\
    swapped_processes e' = swapped_processes demo_reset_env /\
    forall j r,
      process_table demo_reset_env !! j = Some r ->
      exists r', process_table e' !! j = Some r' /\ dynamics_rel r r'.
Proof.
  destruct (_apply_process_dynamics (demo_reset_env, []))
    as [[[] [e' g']]|] eqn:Hrun; [|vm_compute in Hrun; discriminate Hrun].
  exists e', g'. split; [reflexivity|].
  destruct (dynamics_pass_rows demo_reset_env [] e' g' eq_refl Hrun)
    as (H1 & _ & _ & H4).
  split; [exact H1 | exact H4].
Defined.

Lemma spawn_pass_rows_witness :
  exists e' g',
    _spawn_new_process (init 1, leaky_spawn_tape) = Ok (tt, (e', g')) /\
    forall j r,
      process_table (init 1) !! j = Some r ->
      exists r', process_table e' !! j = Some r' /\ spawn_rel r r'.
Proof.
  destruct (_spawn_new_process (init 1, leaky_spawn_tape))
    as [[[] [e' g']]|] eqn:Hrun; [|vm_compute in Hrun; discriminate Hrun].
  exists e', g'. split; [reflexivity|].
  destruct (spawn_pass_rows (init 1) leaky_spawn_tape e' g' Hrun)
    as (_ & _ & _ & H4).
  exact H4.
Defined.

Lemma extra_action_entries_ignored_witness :
  step exp_taylor ([1; 1] ++ [5])%Z (demo_reset_env, []) =
    step exp_taylor [1; 1]%Z (demo_reset_env, []).
Proof.
  apply (extra_action_entries_ignored exp_taylor [1; 1]%Z [5]%Z
           demo_reset_env []).
  vm_compute. lia.
Defined.

Lemma malformed_action_raises_witness :
  reachable exp_taylor demo_reset_env /\
  step exp_taylor [1; 8]%Z (demo_reset_env, []) = Raise IndexError /\
  step exp_taylor [1]%Z (demo_reset_env, []) = Raise IndexError.
Proof.
  split; [apply demo_reset_reachable|]. split.
  - apply (malformed_action_raises exp_taylor [1; 8]%Z demo_reset_env [] 1
             demo_reset_reachable); [vm_compute; lia|].
    right. exists 8%Z. split; [reflexivity | lia].
  - apply (malformed_action_raises exp_taylor [1]%Z demo_reset_env [] 1
             demo_reset_reachable); [vm_compute; lia|].
    left. reflexivity.
Defined.

Lemma step_frame_witness :
  exists out e' g',
    step exp_taylor [1; 1]%Z (demo_reset_env, []) = Ok (out, (e', g')) /\
    current_step e' = S (current_step demo_reset_env) /\
    observation out = _get_obs e'.
Proof.
  destruct (step exp_taylor [1; 1]%Z (demo_reset_env, []))
    as [[out [e' g']]|] eqn:Hrun; [|vm_compute in Hrun; discriminate Hrun].
  exists out, e', g'. split; [reflexivity|].
  destruct (step_frame exp_taylor [1; 1]%Z demo_reset_env [] out e' g'
              eq_refl Hrun)
    as (_ & H2 & _ & _ & _ & _ & H7).
  split; [exact H2 | exact H7].
Defined.

Lemma reset_succeeds_from_two_slots_witness :
  exists obs e g',
    reset exp_taylor (Some 42%Z) (init 2, []) =
      Ok ((obs, env_initialized), (e, g')) /\
    length (process_table e) = 2%nat /\
    Forall profile_row (process_table e).
Proof.
  destruct (reset_succeeds_from_two_slots exp_taylor (Some 42%Z) (init 2) [])
    as (obs & e & g' & Hrun & _ & _ & _ & Hlen & Hrows & _);
    [vm_compute; lia|].
  exists obs, e, g'. split; [exact Hrun|]. split; [exact Hlen | exact Hrows].
Defined.

Lemma reset_raises_without_slots_witness :
  exists x, reset exp_taylor None (init 0, []) = Raise x.
Proof.
  exact (reset_raises_without_slots exp_taylor None (init 0) [] eq_refl).
Defined.

Lemma reset_one_slot_value_error_witness :
  reset exp_taylor None (init 1, [1; 1]%N) = Raise ValueError.
Proof.
  apply (proj2 (reset_one_slot_value_error exp_taylor None (init 1) 1 1 []
                  eq_refl)).
  split; reflexivity.
Defined.

Lemma renice_moves_priority_only_witness :
  exists r rw r',
    process_table demo_reset_env !! 0%nat = Some r /\
    _handle_renice_increase 0 demo_reset_env =
      Ok (rw, put_slot 0 r' zero_row demo_reset_env) /\
    priority r' == priority r + 0.2.
Proof.
  destruct (renice_moves_priority_only 0 demo_reset_env _ _ eq_refl eq_refl)
    as [(rw & r' & Hrun & _ & _ & _ & _ & _ & Hp) _]; [split; by_computation|].
  eexists _, rw, r'. split; [reflexivity|]. split; [exact Hrun|].
  apply Hp; by_computation.
Defined.

Lemma renice_while_swapped_is_discarded_witness :
  exists r rw1 e1 rw2 e2 rw3,
    process_table demo_reset_env !! 0%nat = Some r /\
    _handle_swap_out 0 demo_reset_env = Ok (rw1, e1) /\
    _handle_renice_increase 0 e1 = Ok (rw2, e2) /\
    _handle_swap_in 0 e2 =
      Ok (rw3, put_slot 0 (Row (ram r) (cpu r) (priority r) 1.0) zero_row
                 demo_reset_env).
Proof.
  destruct (renice_while_swapped_is_discarded _handle_renice_increase 0
              demo_reset_env _ _ (or_introl eq_refl) eq_refl eq_refl)
    as (rw1 & e1 & rw2 & e2 & rw3 & H1 & H2 & H3);
    [by_computation | by_computation | split; by_computation
    | by_computation |].
  eexists _, rw1, e1, rw2, e2, rw3. split; [reflexivity|]. auto.
Defined.

(** * The handler calls of a step *)

(** ** The call made for one slot *)

Lemma apply_actions_app action l1 l2 rw0 e :
  apply_actions action (l1 ++ l2) rw0 e =
    match apply_actions action l1 rw0 e with
    | Ok (rw, e1) => apply_actions action l2 rw e1
    | Raise x => Raise x
    end.
Proof.
  revert rw0 e. induction l1 as [|i l1 IH]; intros rw0 e;
    cbn [app apply_actions]; [reflexivity|].
  destruct (action !! i) as [a|]; [|reflexivity].
  destruct (py_index handlers a) as [h|]; [|reflexivity].
  unfold bind. destruct (h i e) as [[local e1]|]; [apply IH | reflexivity].
Qed.

(** The calls made for other slots leave a slot and the statistics as
    they were. *)
Lemma apply_actions_off_slot k0 action indices i rw0 e rw e1 :
  sized k0 e -> ~ In i indices ->
  apply_actions action indices rw0 e = Ok (rw, e1) ->
  sized k0 e1 /\ system_stats e1 = system_stats e /\
  process_table e1 !! i = process_table e !! i /\
  swapped_processes e1 !! i = swapped_processes e !! i.
Proof.
  revert rw0 e. induction indices as [|j rest IH]; intros rw0 e Hs Hni Hrun;
    cbn [apply_actions] in Hrun.
  - unfold ret in Hrun. injection Hrun as <- <-. auto.
  - destruct (action !! j) as [a|]; [|discriminate].
    destruct (py_index handlers a) as [h|] eqn:Hh; [|discriminate].
    apply py_index_elem_of in Hh. unfold bind in Hrun.
    destruct (h j e) as [[local e2]|] eqn:Hj; [|discriminate].
    assert (Hne : j <> i) by (intros ->; apply Hni; now left).
    assert (Hstep : sized k0 e2 /\ system_stats e2 = system_stats e /\
                    process_table e2 !! i = process_table e !! i /\
                    swapped_processes e2 !! i = swapped_processes e !! i).
    { destruct (process_table e !! j) as [r|] eqn:Hr.
      - destruct (swapped_processes e !! j) as [b|] eqn:Hb.
        + destruct (handler_effect h j e r b Hh Hr Hb)
            as (rw1 & r' & b' & Heq & _).
          rewrite Heq in Hj. injection Hj as <- <-.
          split; [now apply sized_put_slot|]. split; [reflexivity|].
          split; [now apply put_slot_lookup_ne | now apply put_slot_swapped_ne].
        + exfalso. apply lookup_lt_Some in Hr. apply lookup_ge_None in Hb.
          destruct Hs as (H1 & H2 & _). lia.
      - destruct (handler_no_slot h j e Hh Hr) as [Heq|Heq];
          rewrite Heq in Hj; [discriminate|]. injection Hj as <- <-. auto. }
    destruct Hstep as (Hs2 & E1 & E2 & E3).
    destruct (IH _ _ Hs2 (fun H => Hni (or_intror H)) Hrun)
      as (Hs1 & F1 & F2 & F3).
    split; [assumption|]. split; [congruence|]. split; congruence.
Qed.

Lemma seq_split_at i n :
  (i < n)%nat -> seq 0 n = seq 0 i ++ i :: seq (S i) (n - S i).
Proof.
  intros Hi. replace n with (i + S (n - S i))%nat at 1 by lia.
  rewrite List.seq_app. cbn [seq Nat.add]. reflexivity.
Qed.

Section Dispatch.

Variable np_exp : Q -> Q.

(** The call that [step] makes for slot [i]: the loop over the slots
    before it, the handler that the action code selects, the loop over
    the slots after it, and what the call received and left. *)
Lemma step_dispatch action e g out e' g' i a r b :
  sized (k e) e ->
  step np_exp action (e, g) = Ok (out, (e', g')) ->
  action !! i = Some a ->
  process_table e !! i = Some r -> swapped_processes e !! i = Some b ->
  exists h rw0 e_i local r' b' rw e1,
    py_index handlers a = Ok h /\
    apply_actions action (seq 0 i) 0 (with_step (S (current_step e)) e) =
      Ok (rw0, e_i) /\
    system_stats e_i = system_stats e /\
    process_table e_i !! i = Some r /\ swapped_processes e_i !! i = Some b /\
    slot_run h (ram_usage (system_stats e)) r b = (local, r', b') /\
    h i e_i = Ok (local, put_slot i r' b' e_i) /\
    apply_actions action (seq (S i) (k e - S i)) (rw0 + local)
      (put_slot i r' b' e_i) = Ok (rw, e1) /\
    process_table e1 !! i = Some r' /\ swapped_processes e1 !! i = Some b' /\
    step_reward out = rw + _calculate_global_reward e'.
Proof.
  intros Hs Hrun Ha Hr Hb.
  assert (Hi : (i < k e)%nat).
  { apply lookup_lt_Some in Hr. destruct Hs as (H1 & _). lia. }
  set (e0 := with_step (S (current_step e)) e) in *.
  assert (Hs0 : sized (k e) e0) by exact Hs.
  rewrite step_eq in Hrun. fold e0 in Hrun.
  rewrite (seq_split_at i (k e) Hi), apply_actions_app in Hrun.
  destruct (apply_actions action (seq 0 i) 0 e0) as [[rw0 e_i]|] eqn:Hpre;
    [|discriminate].
  destruct (apply_actions_off_slot (k e) action (seq 0 i) i 0 e0 rw0 e_i Hs0)
    as (Hsi & Est & Et & Esw); [|exact Hpre|].
  { intros Hin. apply List.in_seq in Hin. lia. }
  change (system_stats e0) with (system_stats e) in Est.
  change (process_table e0) with (process_table e) in Et.
  change (swapped_processes e0) with (swapped_processes e) in Esw.
  rewrite Hr in Et. rewrite Hb in Esw.
  cbn [apply_actions] in Hrun. rewrite Ha in Hrun.
  destruct (py_index handlers a) as [h|] eqn:Hh; [|discriminate].
  pose proof (py_index_elem_of _ _ _ Hh) as Hin.
  destruct (slot_run h (ram_usage (system_stats e)) r b) as [[local r'] b']
    eqn:Hslot.
  assert (Hcall : h i e_i = Ok (local, put_slot i r' b' e_i)).
  { eapply handler_local; try eassumption. now rewrite Est. }
  unfold bind in Hrun. rewrite Hcall in Hrun.
  destruct (apply_actions action (seq (S i) (k e - S i)) (rw0 + local)
              (put_slot i r' b' e_i)) as [[rw e1]|] eqn:Hpost; [|discriminate].
  destruct (apply_actions_off_slot (k e) action (seq (S i) (k e - S i)) i
              (rw0 + local) (put_slot i r' b' e_i) rw e1)
    as (_ & _ & Ft & Fsw); [now apply sized_put_slot | | exact Hpost |].
  { intros Hin'. apply List.in_seq in Hin'. lia. }
  destruct (put_slot_lookup_eq i r' b' e_i r b Et Esw) as [Gt Gsw].
  rewrite Gt in Ft. rewrite Gsw in Fsw.
  destruct (_apply_process_dynamics (e1, g)) as [[[] [e2 g2]]|]; [|discriminate].
  destruct (_spawn_new_process (e2, g2)) as [[[] [e3 g3]]|]; [|discriminate].
  injection Hrun as <- <- <-.
  exists h, rw0, e_i, local, r', b', rw, e1.
  repeat apply conj; try assumption; reflexivity.
Qed.

(** C3. Inside [step] the swap-in for slot [i] is decided on the
    ram_usage stored when the step started, whatever the calls for the
    earlier slots did to the table: the call receives the statistics,
    the record and the backup of the step start.  On a Swapped slot
    whose backed-up RAM would take that ram_usage above 1.0 it returns
    -10 and changes nothing (the record is still (0, 0, priority,
    Swapped), the backup is intact); otherwise the record is restored
    from the backup as Running, the backup is cleared and the reward is
    backup.priority * 5, less 15 when the predicted ram_usage is at
    least 0.8.  On a slot that is not Swapped it returns -2 and changes
    nothing.  The reward of the call is added to the running total that
    [step] returns with the global reward. *)
Theorem swap_in_guarded action e g out e' g' i r b :
  reachable np_exp e ->
  step np_exp action (e, g) = Ok (out, (e', g')) ->
  action !! i = Some 2%Z ->
  process_table e !! i = Some r -> swapped_processes e !! i = Some b ->
  let predicted := ram_usage (system_stats e) + ram b in
  let restored := Row (ram b) (cpu b) (priority b) 1.0 in
  exists rw0 e_i local e_i' rw e1,
    apply_actions action (seq 0 i) 0 (with_step (S (current_step e)) e) =
      Ok (rw0, e_i) /\
    system_stats e_i = system_stats e /\
    process_table e_i !! i = Some r /\ swapped_processes e_i !! i = Some b /\
    _handle_swap_in i e_i = Ok (local, e_i') /\
    apply_actions action (seq (S i) (k e - S i)) (rw0 + local) e_i' =
      Ok (rw, e1) /\
    step_reward out = rw + _calculate_global_reward e' /\
    (~ state r == 0.3 ->
     local = -2 /\ e_i' = e_i /\
     process_table e1 !! i = Some r /\ swapped_processes e1 !! i = Some b) /\
    (state r == 0.3 ->
     ram r == 0 /\ cpu r == 0 /\
     (1.0 < predicted ->
      local = -10 /\ e_i' = e_i /\
      process_table e1 !! i = Some r /\ swapped_processes e1 !! i = Some b) /\
     (predicted <= 1.0 ->
      e_i' = put_slot i restored zero_row e_i /\
      process_table e1 !! i = Some restored /\
      swapped_processes e1 !! i = Some zero_row /\
      (0.8 <= predicted -> local = priority b * 5 - 15) /\
      (predicted < 0.8 -> local = priority b * 5))).
Proof.
  intros Hreach Hrun Ha Hr Hb predicted restored.
  assert (Hs : sized (k e) e) by (apply Inv_sized, reachable_Inv with np_exp, Hreach).
  destruct (step_dispatch action e g out e' g' i 2%Z r b Hs Hrun Ha Hr Hb)
    as (h & rw0 & e_i & local & r' & b' & rw & e1 & Hh & Hpre & Est & Et & Esw
        & Hslot & Hcall & Hpost & Ft & Fsw & Hrw).
  injection Hh as <-.
  exists rw0, e_i, local, (put_slot i r' b' e_i), rw, e1.
  do 7 (split; [assumption|]).
  destruct (reachable_slot np_exp e i r Hreach Hr) as (b0 & Hb0 & Hinv).
  rewrite Hb in Hb0. injection Hb0 as <-.
  split.
  - intros Hns.
    assert (E : slot_run _handle_swap_in (ram_usage (system_stats e)) r b =
                (-2, r, b)) by eval_slot_run.
    rewrite Hslot in E. injection E as -> -> ->.
    rewrite (put_slot_id i r b e_i Et Esw). auto.
  - intros Hst. destruct Hinv as (_ & _ & Hzero & _).
    destruct (Hzero Hst) as [Hram Hcpu].
    split; [assumption|]. split; [assumption|]. subst predicted restored.
    split.
    + intros Hp.
      assert (E : slot_run _handle_swap_in (ram_usage (system_stats e)) r b =
                  (-10, r, b)) by eval_slot_run.
      rewrite Hslot in E. injection E as -> -> ->.
      rewrite (put_slot_id i r b e_i Et Esw). auto.
    + intros Hp.
      destruct (Qlt_le_dec (ram_usage (system_stats e) + ram b) 0.8) as [Hlo|Hhi].
      * assert (E : slot_run _handle_swap_in (ram_usage (system_stats e)) r b =
                    (priority b * 5, Row (ram b) (cpu b) (priority b) 1.0,
                     zero_row)) by eval_slot_run.
        rewrite Hslot in E. injection E as -> -> ->.
        repeat apply conj; try assumption; try reflexivity.
        intros Hc. exfalso. lra.
      * assert (E : slot_run _handle_swap_in (ram_usage (system_stats e)) r b =
                    (priority b * 5 - 15, Row (ram b) (cpu b) (priority b) 1.0,
                     zero_row)) by eval_slot_run.
        rewrite Hslot in E. injection E as -> -> ->.
        repeat apply conj; try assumption; try reflexivity.
        intros Hc. exfalso. lra.
Qed.

(** C8. From a reachable instance, [step] on an action vector of [k]
    codes in [0, 7] returns.  Inside that step, the call made for a slot
    whose action does not apply to the state of its record (kill,
    swap-out, suspend or renice on a Killed slot, swap-out or suspend on
    a Swapped slot, suspend on a Suspended slot, swap-in on a slot that
    is not Swapped, resume on a slot that is not Suspended) raises
    nothing: it returns a penalty, which is added to the running total
    that [step] returns with the global reward, and leaves the instance,
    and so the slot, as it received it. *)
Theorem step_total_with_penalties e action g :
  reachable np_exp e -> well_formed_action (k e) action ->
  exists out e' g',
    step np_exp action (e, g) = Ok (out, (e', g')) /\
    forall i a r b,
      action !! i = Some a ->
      process_table e !! i = Some r -> swapped_processes e !! i = Some b ->
      exists h rw0 e_i local e_i' rw e1,
        py_index handlers a = Ok h /\
        apply_actions action (seq 0 i) 0 (with_step (S (current_step e)) e) =
          Ok (rw0, e_i) /\
        process_table e_i !! i = Some r /\
        swapped_processes e_i !! i = Some b /\
        h i e_i = Ok (local, e_i') /\
        apply_actions action (seq (S i) (k e - S i)) (rw0 + local) e_i' =
          Ok (rw, e1) /\
        step_reward out = rw + _calculate_global_reward e' /\
        let penalised p :=
          local = p /\ e_i' = e_i /\
          process_table e1 !! i = Some r /\
          swapped_processes e1 !! i = Some b in
        (state r == 0 ->
         (a = 0%Z -> penalised (-1)) /\ (a = 1%Z -> penalised (-5)) /\
         (a = 3%Z -> penalised (-5)) /\ (a = 5%Z -> penalised (-5)) /\
         (a = 6%Z -> penalised (-5))) /\
        (state r == 0.3 ->
         (a = 1%Z -> penalised (-2)) /\ (a = 3%Z -> penalised (-3))) /\
        (state r == 0.6 -> a = 3%Z -> penalised (-2)) /\
        (~ state r == 0.3 -> a = 2%Z -> penalised (-2)) /\
        (~ state r == 0.6 -> a = 4%Z -> penalised (-2)).
Proof.
  intros Hreach Hwf.
  assert (Hs : sized (k e) e) by (apply Inv_sized, reachable_Inv with np_exp, Hreach).
  destruct (step_total np_exp action e g Hs Hwf) as (out & e' & g' & Hrun).
  exists out, e', g'. split; [exact Hrun|].
  intros i a r b Ha Hr Hb.
  destruct (step_dispatch action e g out e' g' i a r b Hs Hrun Ha Hr Hb)
    as (h & rw0 & e_i & local & r' & b' & rw & e1 & Hh & Hpre & Est & Et & Esw
        & Hslot & Hcall & Hpost & Ft & Fsw & Hrw).
  exists h, rw0, e_i, local, (put_slot i r' b' e_i), rw, e1.
  do 7 (split; [assumption|]).
  assert (Hpen : forall h0 p,
             h = h0 ->
             slot_run h0 (ram_usage (system_stats e)) r b = (p, r, b) ->
             local = p /\ put_slot i r' b' e_i = e_i /\
             process_table e1 !! i = Some r /\
             swapped_processes e1 !! i = Some b).
  { intros h0 p <- E. rewrite Hslot in E. injection E as -> -> ->.
    rewrite (put_slot_id i r b e_i Et Esw). auto. }
  cbv zeta.
  refine (conj _ (conj _ (conj _ (conj _ _)))).
  - intros Hst.
    refine (conj _ (conj _ (conj _ (conj _ _)))); intros ->;
      injection Hh as Hh; symmetry in Hh;
      (eapply Hpen; [exact Hh|]); eval_slot_run.
  - intros Hst.
    refine (conj _ _); intros ->;
      injection Hh as Hh; symmetry in Hh;
      (eapply Hpen; [exact Hh|]); eval_slot_run.
  - intros Hst ->. injection Hh as Hh. symmetry in Hh.
    eapply Hpen; [exact Hh|]. eval_slot_run.
  - intros Hst ->. injection Hh as Hh. symmetry in Hh.
    eapply Hpen; [exact Hh|]. eval_slot_run.
  - intros Hst ->. injection Hh as Hh. symmetry in Hh.
    eapply Hpen; [exact Hh|]. eval_slot_run.
Qed.

End Dispatch.

(** ** The calls of a step on concrete runs *)

Lemma pressure_reachable : reachable exp_taylor pressure_env.
Proof.
  eapply (reachable_step exp_taylor [1; 1]%Z pressure_env0 []);
    [|vm_compute; reflexivity].
  eapply (reachable_reset exp_taylor None (init 2) [1; 1]%N).
  vm_compute. reflexivity.
Qed.

Lemma swap_in_guarded_witness :
  reachable exp_taylor pressure_env /\
  exists out e' g' b rw0 e_i local rw e1,
    step exp_taylor [2; 2]%Z (pressure_env, []) = Ok (out, (e', g')) /\
    swapped_processes pressure_env !! 1%nat = Some b /\
    apply_actions [2; 2]%Z (seq 0 1) 0
      (with_step (S (current_step pressure_env)) pressure_env) =
      Ok (rw0, e_i) /\
    system_stats e_i = system_stats pressure_env /\
    1.0 < np_sum ram (process_table e_i) + 0.10 + ram b /\
    ram_usage (system_stats pressure_env) + ram b < 0.8 /\
    _handle_swap_in 1 e_i =
      Ok (local,
          put_slot 1 (Row (ram b) (cpu b) (priority b) 1.0) zero_row e_i) /\
    local = priority b * 5 /\
    apply_actions [2; 2]%Z (seq 2 0) (rw0 + local)
      (put_slot 1 (Row (ram b) (cpu b) (priority b) 1.0) zero_row e_i) =
      Ok (rw, e1) /\
    step_reward out = rw + _calculate_global_reward e'.
Proof.
  split; [apply pressure_reachable|].
  destruct (step exp_taylor [2; 2]%Z (pressure_env, []))
    as [[out [e' g']]|] eqn:Hrun; [|vm_compute in Hrun; discriminate Hrun].
  destruct (swap_in_guarded exp_taylor [2; 2]%Z pressure_env [] out e' g' 1
              _ _ pressure_reachable Hrun eq_refl eq_refl eq_refl)
    as (rw0 & e_i & local & e_i' & rw & e1 & Hpre & Est & _ & _ & Hcall
        & Hpost & Hrw & _ & Hsw).
  destruct Hsw as (_ & _ & _ & Hfit); [by_computation|].
  destruct Hfit as (-> & _ & _ & _ & Hlocal); [by_computation|].
  specialize (Hlocal ltac:(by_computation)).
  eexists out, e', g', _, rw0, e_i, local, rw, e1.
  split; [reflexivity|]. split; [reflexivity|]. split; [exact Hpre|].
  split; [exact Est|]. split.
  { vm_compute in Hpre. injection Hpre as _ <-. by_computation. }
  split; [by_computation|]. split; [exact Hcall|]. split; [exact Hlocal|].
  split; [exact Hpost | exact Hrw].
Defined.

Lemma step_total_with_penalties_witness :
  reachable exp_taylor demo_swapped_env /\
  well_formed_action (k demo_swapped_env) [4; 3]%Z /\
  exists out e' g' r b rw0 e_i rw e1,
    step exp_taylor [4; 3]%Z (demo_swapped_env, []) = Ok (out, (e', g')) /\
    process_table demo_swapped_env !! 0%nat = Some r /\
    swapped_processes demo_swapped_env !! 0%nat = Some b /\
    apply_actions [4; 3]%Z (seq 0 0) 0
      (with_step (S (current_step demo_swapped_env)) demo_swapped_env) =
      Ok (rw0, e_i) /\
    _handle_resume 0 e_i = Ok (-2, e_i) /\
    apply_actions [4; 3]%Z (seq 1 1) (rw0 + -2) e_i = Ok (rw, e1) /\
    step_reward out = rw + _calculate_global_reward e' /\
    process_table e1 !! 0%nat = Some r /\
    swapped_processes e1 !! 0%nat = Some b.
Proof.
  assert (Hwf : well_formed_action (k demo_swapped_env) [4; 3]%Z).
  { split; [reflexivity|]. repeat constructor; by_computation. }
  split; [apply demo_swapped_reachable|]. split; [exact Hwf|].
  destruct (step_total_with_penalties exp_taylor demo_swapped_env [4; 3]%Z []
              demo_swapped_reachable Hwf) as (out & e' & g' & Hrun & Hall).
  destruct (Hall 0%nat 4%Z _ _ eq_refl eq_refl eq_refl)
    as (h & rw0 & e_i & local & e_i' & rw & e1 & Hh & Hpre & _ & _ & Hcall
        & Hpost & Hrw & Hcases).
  injection Hh as <-. cbv zeta in Hcases.
  destruct Hcases as (_ & _ & _ & _ & H5).
  destruct (H5 ltac:(by_computation) eq_refl) as (-> & -> & Ht & Hsw).
  eexists out, e', g', _, _, rw0, e_i, rw, e1.
  split; [exact Hrun|]. split; [reflexivity|]. split; [reflexivity|].
  split; [exact Hpre|]. split; [exact Hcall|]. split; [exact Hpost|].
  split; [exact Hrw|]. split; [exact Ht | exact Hsw].
Defined.
